(** * LogsProcessor: guild lifecycle events, audit-log correlation, routing
      and rendering of log lines.

    Shallow embedding of the [LogsProcessor] class (the Discord logs module
    of the bot): the proxy from platform events to log events, the two
    audit-log correlators, the channel resolver, the event handler and the
    two static dispatch tables. *)

From stdpp Require Import gmap strings list fin_maps pretty.
From Stdlib Require Import ZArith Lia Ascii String.

Local Open Scope string_scope.

(** ** JavaScript strings

    Strings are byte strings.  The only length-sensitive operations of the
    module ([endsWith], [slice]) are applied to event names, which are ASCII. *)

Module JsString.

(** [s.endsWith(suffix)] *)
Definition endsWith (s suffix : string) : bool :=
  let n := String.length s in
  let k := String.length suffix in
  if (k <=? n)%nat then String.eqb (String.substring (n - k) k s) suffix else false.

(** [s.slice(0, -k)] for [k > 0]: the string without its last [k]
    characters (empty when the string is shorter than [k]). *)
Definition slice_drop_end (s : string) (k : nat) : string :=
  String.substring 0 (String.length s - k) s.

(** [xs.includes(x)] on an array of strings *)
Definition includes (xs : list string) (x : string) : bool :=
  existsb (String.eqb x) xs.

(** [sub] occurs in [s] *)
Definition contains (sub s : string) : Prop :=
  ∃ pre post, s = pre +:+ sub +:+ post.

End JsString.

(** ** Values held by a settings record

    A row of the guild model read through [guildInstance[key]]: flags are
    stored as 0/1 numbers, channel identifiers as strings or [null]. *)

Inductive JsVal :=
| JNull
| JNum (n : Z)
| JStr (s : string).

(** JavaScript truthiness; a missing property reads as [undefined]. *)
Definition truthy (v : option JsVal) : bool :=
  match v with
  | None | Some JNull => false
  | Some (JNum n) => negb (n =? 0)%Z
  | Some (JStr s) => negb (String.eqb s "")
  end.

(** [v.toString()]; [None] is the TypeError raised on [null]. *)
Definition toString (v : JsVal) : option string :=
  match v with
  | JNull => None
  | JNum n => Some (pretty n)
  | JStr s => Some s
  end.

(** ** Platform entities *)

Record User := {
  user_id : string;
  user_tag : string;
  user_username : string
}.

Record Channel := {
  channel_id : string;
  channel_type : string
}.

Record AuditEntry := {
  entry_action : string;
  entry_targetType : string;
  entry_target_id : string;
  entry_executor_tag : string;
  entry_reason : option string
}.

(** A guild: its identifier, [guild.me.hasPermission], the audit log as the
    platform would return it ([None]: the query fails) and the channel
    cache. *)
Record Guild := {
  guild_id : string;
  guild_me_hasPermission : string → bool;
  guild_audit_log : option (list AuditEntry);
  guild_channels : gmap string Channel
}.

Record Member := {
  member_id : string;
  member_user : User;
  member_nickname : option string;
  member_partial : bool;
  member_guild : Guild
}.

(** [guild.fetchAuditLogs({type})]: the entries, newest first, restricted to
    the requested action type when one is given. *)
Definition fetchAuditLogs (g : Guild) (type : option string)
  : option (list AuditEntry) :=
  match guild_audit_log g with
  | None => None
  | Some entries =>
      Some (match type with
            | None => entries
            | Some t => filter (λ e, entry_action e = t) entries
            end)
  end.

(** Arguments travelling with a log event through the emitter. *)
Inductive Arg :=
| AMember (m : Member)
| AGuild (g : Guild)
| AUser (u : User)
| AEntry (e : AuditEntry).

(** Raw platform events the module subscribes to. *)
Inductive DiscordEvent :=
| guildMemberAdd (member : Member)
| guildMemberRemove (member : Member)
| guildMemberUpdate (prev curr : Member)
| guildBanAdd (guild : Guild) (user : User)
| guildBanRemove (guild : Guild) (user : User).

(** What a proxy callback does: emits one log event, returns without
    emitting, or its promise rejects. *)
Inductive Resolution :=
| Emit (eventName : string) (args : list Arg)
| NoEmit
| Reject.

Definition EVENT_NAME_AUDIT_POSTFIX : string := "Audit".

(** ** Normalizer and audit correlator *)

Section Correlator.

(** [member.fetch()]: the completed member, or [None] when the request
    fails. *)
Variable fetch : Member → option Member.

Definition targets (id : string) (e : AuditEntry) : bool :=
  String.eqb (entry_targetType e) "USER" && String.eqb (entry_target_id e) id.

Definition removal_entry (id : string) (e : AuditEntry) : bool :=
  JsString.includes ["MEMBER_KICK"; "MEMBER_BAN_ADD"; "MEMBER_BAN_REMOVE"]
                    (entry_action e)
  && targets id e.

(** [if (member.partial) await member.fetch()]: the member the rest of the
    correlator reads, or [None] when the completion request fails. *)
Definition completed (member : Member) : option Member :=
  if member_partial member then fetch member else Some member.

Definition resolveMemberRemove (member0 : Member) : Resolution :=
  match completed member0 with
  | None => Reject
  | Some member =>
      if negb (guild_me_hasPermission (member_guild member) "VIEW_AUDIT_LOG")
      then Emit "left" [AMember member]
      else
        match fetchAuditLogs (member_guild member) None with
        | None => Reject
        | Some entries =>
            match find (removal_entry (member_id member)) entries with
            | None => Emit "left" [AMember member]
            | Some entry =>
                if String.eqb (entry_action entry) "MEMBER_KICK"
                then Emit "kick" [AMember member; AEntry entry]
                else NoEmit
            end
        end
  end.

Definition resolveBanManagementEvent (eventName : string) (guild : Guild)
           (user : User) : Resolution :=
  if negb (guild_me_hasPermission guild "VIEW_AUDIT_LOG")
  then Emit eventName [AGuild guild; AUser user]
  else
    match fetchAuditLogs guild
            (Some ("MEMBER_BAN_" +:+
                   (if String.eqb eventName "ban" then "ADD" else "REMOVE")))
    with
    | None => Reject
    | Some entries =>
        match find (targets (user_id user)) entries with
        | None => Emit eventName [AGuild guild; AUser user]
        | Some entry =>
            Emit (eventName +:+ EVENT_NAME_AUDIT_POSTFIX)
                 [AGuild guild; AUser user; AEntry entry]
        end
    end.

Definition resolveMemberUpdate (previousMember currentMember : Member)
  : Resolution :=
  if bool_decide (member_nickname previousMember = member_nickname currentMember)
  then NoEmit
  else Emit "rename" [AMember previousMember; AMember currentMember].

Definition proxyDiscordEvents (ev : DiscordEvent) : Resolution :=
  match ev with
  | guildMemberAdd member => Emit "join" [AMember member]
  | guildMemberRemove member => resolveMemberRemove member
  | guildMemberUpdate prev curr => resolveMemberUpdate prev curr
  | guildBanAdd guild user => resolveBanManagementEvent "ban" guild user
  | guildBanRemove guild user => resolveBanManagementEvent "unban" guild user
  end.

End Correlator.

(** ** Requests of the correlators

    The correlators again, this time with the requests they await, in the
    order they are made: the completion of a partial member and the query
    of the audit log. *)

Inductive Request :=
| FetchMember (member : Member)
| FetchAuditLogs (guild : Guild) (type : option string).

Definition is_member_fetch (r : Request) : bool :=
  match r with FetchMember _ => true | FetchAuditLogs _ _ => false end.

Definition is_log_query (r : Request) : bool :=
  match r with FetchMember _ => false | FetchAuditLogs _ _ => true end.

Section Traced.

Variable fetch : Member → option Member.

Definition resolveMemberRemove_traced (member0 : Member)
  : Resolution * list Request :=
  let fetched := if member_partial member0 then [FetchMember member0] else [] in
  match completed fetch member0 with
  | None => (Reject, fetched)
  | Some member =>
      if negb (guild_me_hasPermission (member_guild member) "VIEW_AUDIT_LOG")
      then (Emit "left" [AMember member], fetched)
      else
        let queried :=
          (fetched ++ [FetchAuditLogs (member_guild member) None])%list in
        match fetchAuditLogs (member_guild member) None with
        | None => (Reject, queried)
        | Some entries =>
            match find (removal_entry (member_id member)) entries with
            | None => (Emit "left" [AMember member], queried)
            | Some entry =>
                if String.eqb (entry_action entry) "MEMBER_KICK"
                then (Emit "kick" [AMember member; AEntry entry], queried)
                else (NoEmit, queried)
            end
        end
  end.

Definition resolveBanManagementEvent_traced (eventName : string) (guild : Guild)
           (user : User) : Resolution * list Request :=
  if negb (guild_me_hasPermission guild "VIEW_AUDIT_LOG")
  then (Emit eventName [AGuild guild; AUser user], [])
  else
    let type :=
      Some ("MEMBER_BAN_" +:+
            (if String.eqb eventName "ban" then "ADD" else "REMOVE")) in
    let queried := [FetchAuditLogs guild type] in
    match fetchAuditLogs guild type with
    | None => (Reject, queried)
    | Some entries =>
        match find (targets (user_id user)) entries with
        | None => (Emit eventName [AGuild guild; AUser user], queried)
        | Some entry =>
            (Emit (eventName +:+ EVENT_NAME_AUDIT_POSTFIX)
                  [AGuild guild; AUser user; AEntry entry], queried)
        end
    end.

End Traced.

(** ** Dispatch tables *)

(** A table of JavaScript functions keyed by event name, in the order the
    keys are written.  A function applied to arguments of the wrong shape
    dereferences [undefined]; that TypeError is [None]. *)
Definition Table (A : Type) := list (string * (list Arg → option A)).

(** [table[key]] *)
Fixpoint table_get {A} (t : Table A) (key : string)
  : option (list Arg → option A) :=
  match t with
  | [] => None
  | (k, f) :: rest => if String.eqb key k then Some f else table_get rest key
  end.

(** Own enumerable keys, in [for ... in] order. *)
Definition table_keys {A} (t : Table A) : list string := map fst t.

(** [nickname ?? username] *)
Definition display_name (m : Member) : string :=
  match member_nickname m with
  | Some nick => nick
  | None => user_username (member_user m)
  end.

Section Renderer.

(** [escapeMarkdown] of the utilities module. *)
Variable escape : string → string.

(** [entry.reason?.length ? ` reason ${escape(entry.reason)}` : " no reason"] *)
Definition reason_clause (entry : AuditEntry) : string :=
  match entry_reason entry with
  | Some r => if (String.length r =? 0)%nat then " no reason"
              else " reason " +:+ escape r
  | None => " no reason"
  end.

Definition render_join (args : list Arg) : option string :=
  match args with
  | AMember member :: _ =>
      Some (":inbox_tray: [JOIN] | " +:+ escape ("ID: " +:+ member_id member)
            +:+ " | " +:+ escape (user_tag (member_user member)))
  | _ => None
  end.

Definition render_left (args : list Arg) : option string :=
  match args with
  | AMember member :: _ =>
      Some (":outbox_tray: [LEAVE] | " +:+ escape ("ID: " +:+ member_id member)
            +:+ " | " +:+ escape (user_tag (member_user member)))
  | _ => None
  end.

Definition render_rename (args : list Arg) : option string :=
  match args with
  | AMember prev :: AMember next :: _ =>
      Some ((":abc: [RENAME] | " +:+ escape ("ID: " +:+ member_id prev) +:+ " | ")
            +:+ (escape (display_name prev) +:+ " → "
                 +:+ escape (display_name next)))
  | _ => None
  end.

Definition render_ban (args : list Arg) : option string :=
  match args with
  | _ :: AUser user :: _ =>
      Some ((":hammer: [BAN] | " +:+ escape ("ID: " +:+ user_id user))
            +:+ (" | " +:+ escape (user_tag user)))
  | _ => None
  end.

Definition render_banAudit (args : list Arg) : option string :=
  match args with
  | _ :: AUser user :: AEntry entry :: _ =>
      Some ((":hammer: [BAN] by " +:+ escape (entry_executor_tag entry) +:+ " with")
            +:+ reason_clause entry
            +:+ (" | " +:+ escape ("ID: " +:+ user_id user) +:+ " | "
                 +:+ escape (user_tag user)))
  | _ => None
  end.

Definition render_unban (args : list Arg) : option string :=
  match args with
  | _ :: AUser user :: _ =>
      Some ((":peace: [UNBAN] | " +:+ escape ("ID: " +:+ user_id user))
            +:+ (" | " +:+ escape (user_tag user)))
  | _ => None
  end.

Definition render_unbanAudit (args : list Arg) : option string :=
  match args with
  | _ :: AUser user :: AEntry entry :: _ =>
      Some ((":peace: [UNBAN] by " +:+ escape (entry_executor_tag entry))
            +:+ (" | " +:+ escape ("ID: " +:+ user_id user) +:+ " | "
                 +:+ escape (user_tag user)))
  | _ => None
  end.

Definition render_kick (args : list Arg) : option string :=
  match args with
  | AMember member :: AEntry entry :: _ =>
      Some ((":boot: [KICK] by " +:+ escape (entry_executor_tag entry) +:+ " with")
            +:+ reason_clause entry
            +:+ (" | " +:+ escape ("ID: " +:+ member_id member) +:+ " ")
            +:+ ("| " +:+ escape (user_tag (member_user member))))
  | _ => None
  end.

Definition eventMessageRenderer : Table string :=
  [ ("join", render_join);
    ("left", render_left);
    ("rename", render_rename);
    ("ban", render_ban);
    ("banAudit", render_banAudit);
    ("unban", render_unban);
    ("unbanAudit", render_unbanAudit);
    ("kick", render_kick) ].

End Renderer.

Definition guild_of_member (args : list Arg) : option Guild :=
  match args with
  | AMember member :: _ => Some (member_guild member)
  | _ => None
  end.

Definition guild_of_guild (args : list Arg) : option Guild :=
  match args with
  | AGuild guild :: _ => Some guild
  | _ => None
  end.

Definition guildResolver : Table Guild :=
  [ ("join", guild_of_member);
    ("left", guild_of_member);
    ("rename", guild_of_member);
    ("ban", guild_of_guild);
    ("banAudit", guild_of_guild);
    ("unban", guild_of_guild);
    ("unbanAudit", guild_of_guild);
    ("kick", guild_of_member) ].

(** ** Routing resolver and dispatcher *)

(** What handling one log event does. *)
Inductive Delivery :=
| Sent (channel : Channel) (logMessage : string)
| Skipped
| Fault.

(** [#resolveChannel]: a thrown error, [null]/[undefined], or a channel. *)
Inductive Resolved :=
| RFault
| RNone
| RChannel (channel : Channel).

(** Step 3 of the resolver: the settings key of an event name. *)
Definition settingsKey (eventName : string) : string :=
  let eventName :=
    if JsString.endsWith eventName EVENT_NAME_AUDIT_POSTFIX
    then JsString.slice_drop_end eventName (String.length EVENT_NAME_AUDIT_POSTFIX)
    else eventName in
  if String.eqb eventName "unban" then "ban" else eventName.

Definition channelType (key : string) : string :=
  if JsString.includes ["msgdelete"; "msgimage"; "msgupdate"] key
  then "private" else "public".

Section Dispatcher.

Variable escape : string → string.

(** The attributes a freshly created guild row gets from the model. *)
Variable defaults : gmap string JsVal.

(** [GuildModel.findOrCreate({ where: { id } })] on the table of guild
    rows: the row and the table after the call. *)
Definition findOrCreate (db : gmap string (gmap string JsVal)) (id : string)
  : gmap string JsVal * gmap string (gmap string JsVal) :=
  match db !! id with
  | Some row => (row, db)
  | None =>
      let row := <["id" := JStr id]> defaults in
      (row, <[id := row]> db)
  end.

Definition resolveChannel (db : gmap string (gmap string JsVal))
           (eventName : string) (args : list Arg)
  : Resolved * gmap string (gmap string JsVal) :=
  match table_get guildResolver eventName with
  | None => (RFault, db)
  | Some resolver =>
      match resolver args with
      | None => (RFault, db)
      | Some guild =>
          let '(guildInstance, db') := findOrCreate db (guild_id guild) in
          let eventName := settingsKey eventName in
          let channelType := channelType eventName in
          if negb (truthy (guildInstance !! "logs_enabled"))
             || negb (truthy (guildInstance !! ("logs_" +:+ eventName +:+ "_event")))
             || negb (truthy (guildInstance !! ("logs_" +:+ channelType +:+ "_channel")))
          then (RNone, db')
          else
            match guildInstance !! ("logs_" +:+ channelType +:+ "_channel") with
            | None => (RFault, db')
            | Some v =>
                match toString v with
                | None => (RFault, db')
                | Some id =>
                    match guild_channels guild !! id with
                    | None => (RNone, db')
                    | Some channel => (RChannel channel, db')
                    end
                end
            end
      end
  end.

(** [#handleEvent]; sending [undefined] is refused by the platform. *)
Definition handleEvent (db : gmap string (gmap string JsVal))
           (eventName : string) (args : list Arg)
  : Delivery * gmap string (gmap string JsVal) :=
  match resolveChannel db eventName args with
  | (RFault, db') => (Fault, db')
  | (RNone, db') => (Skipped, db')
  | (RChannel channel, db') =>
      match table_get (eventMessageRenderer escape) eventName with
      | None =>
          if String.eqb (channel_type channel) "text" then (Fault, db')
          else (Skipped, db')
      | Some renderer =>
          match renderer args with
          | None => (Fault, db')
          | Some logMessage =>
              if String.eqb (channel_type channel) "text"
              then (Sent channel logMessage, db')
              else (Skipped, db')
          end
      end
  end.

(** [#handleLogEvents]: the names a listener is registered for. *)
Definition handleLogEvents : list string :=
  table_keys (eventMessageRenderer escape).

(** [emitter.emit(eventName, ...args)]: the listener runs when one is
    registered; [None] when there is none. *)
Definition emit (db : gmap string (gmap string JsVal))
           (eventName : string) (args : list Arg)
  : option (Delivery * gmap string (gmap string JsVal)) :=
  if JsString.includes handleLogEvents eventName
  then Some (handleEvent db eventName args)
  else None.

End Dispatcher.

(** ** Markdown escaping *)

Definition markdown_control (c : ascii) : bool :=
  existsb (Ascii.eqb c) ["*"; "_"; "~"; "`"; "|"; "\"]%char.

(** Modelled from the spec: [escapeMarkdown] of the utilities module
    (Utils.js), which is not among the sources.  The text is "escaped
    against markdown-control characters" so that a name "renders
    literally": every markdown control character gets a backslash in
    front of it. *)
Fixpoint escapeMarkdown (text : string) : string :=
  match text with
  | EmptyString => EmptyString
  | String c rest =>
      if markdown_control c
      then String "\" (String c (escapeMarkdown rest))
      else String c (escapeMarkdown rest)
  end.

(** How a markdown reader displays a string when only escapes are
    considered: a backslash makes the next character literal. *)
Fixpoint displayed (s : string) : string :=
  match s with
  | EmptyString => EmptyString
  | String c rest =>
      if Ascii.eqb c "\"
      then match rest with
           | EmptyString => String c EmptyString
           | String d rest' => String d (displayed rest')
           end
      else String c (displayed rest)
  end.

(** A control character that is not protected by a backslash. *)
Fixpoint has_raw_control (s : string) : bool :=
  match s with
  | EmptyString => false
  | String c rest =>
      if Ascii.eqb c "\"
      then match rest with
           | EmptyString => true
           | String _ rest' => has_raw_control rest'
           end
      else markdown_control c || has_raw_control rest
  end.

(** The fixed text of the renderers' template literals. *)
Definition template_literals : list string :=
  [ ":inbox_tray: [JOIN] | "; ":outbox_tray: [LEAVE] | "; ":abc: [RENAME] | ";
    ":hammer: [BAN] | "; ":hammer: [BAN] by "; ":peace: [UNBAN] | ";
    ":peace: [UNBAN] by "; ":boot: [KICK] by ";
    " | "; "| "; " "; " → "; " with"; " reason "; " no reason" ].

(** The user-controlled text an argument carries: identifiers as the
    renderers write them, tags, names and reasons. *)
Definition arg_texts (a : Arg) : list string :=
  match a with
  | AMember m =>
      ["ID: " +:+ member_id m; user_tag (member_user m); display_name m]
  | AGuild _ => []
  | AUser u => ["ID: " +:+ user_id u; user_tag u]
  | AEntry e =>
      entry_executor_tag e ::
      match entry_reason e with Some r => [r] | None => [] end
  end.

(** A line made only of template text and of escaped pieces of the given
    texts. *)
Inductive templated (escape : string → string) (texts : list string)
  : string → Prop :=
| templated_literal lit :
    In lit template_literals → templated escape texts lit
| templated_escaped text :
    In text texts → templated escape texts (escape text)
| templated_append a b :
    templated escape texts a → templated escape texts b →
    templated escape texts (a +:+ b).

(** The user-controlled texts the line of an event shows, by the shape of
    the event: identifier and tag of the subject, old and new name for a
    rename, and for the audit kinds the executor's tag and, where the line
    has one, the reason when it is not empty. *)
Definition reason_texts (e : AuditEntry) : list string :=
  match entry_reason e with
  | Some (String c r) => [String c r]
  | _ => []
  end.

Definition shown_texts (eventName : string) (args : list Arg) : list string :=
  match args with
  | [AMember m] => ["ID: " +:+ member_id m; user_tag (member_user m)]
  | [AMember p; AMember n] =>
      ["ID: " +:+ member_id p; display_name p; display_name n]
  | [AMember m; AEntry e] =>
      (entry_executor_tag e :: reason_texts e
       ++ ["ID: " +:+ member_id m; user_tag (member_user m)])%list
  | [AGuild _; AUser u] => ["ID: " +:+ user_id u; user_tag u]
  | [AGuild _; AUser u; AEntry e] =>
      (entry_executor_tag e
       :: (if String.eqb eventName "unbanAudit" then [] else reason_texts e)
       ++ ["ID: " +:+ user_id u; user_tag u])%list
  | _ => []
  end.

(** Markdown delimiters a reader acts on: emphasis ([*], [_]), code
    ([`]), strike-through ([~~]) and spoiler ([||]); a backslash takes the
    next character out of play. *)
Fixpoint opens_markup (s : string) : bool :=
  match s with
  | EmptyString => false
  | String c rest =>
      if Ascii.eqb c "\"
      then match rest with
           | EmptyString => false
           | String _ rest' => opens_markup rest'
           end
      else if existsb (Ascii.eqb c) ["*"; "_"; "`"]%char then true
      else match rest with
           | String d _ =>
               if (Ascii.eqb c "~" && Ascii.eqb d "~")
                  || (Ascii.eqb c "|" && Ascii.eqb d "|")
               then true else opens_markup rest
           | EmptyString => false
           end
  end.

Fixpoint no_backslash (s : string) : bool :=
  match s with
  | EmptyString => true
  | String c rest => negb (Ascii.eqb c "\") && no_backslash rest
  end.

(** A line written with [escapeMarkdown] beside the same line written with
    the texts as they are. *)
Inductive renders : string → string → Prop :=
| renders_literal lit : no_backslash lit = true → renders lit lit
| renders_escaped text : renders (escapeMarkdown text) text
| renders_append a a' b b' :
    renders a a' → renders b b' → renders (a +:+ b) (a' +:+ b').

(** The shapes of the log events the proxy emits. *)
Inductive emitted_shape : string → list Arg → Prop :=
| shape_join m : emitted_shape "join" [AMember m]
| shape_left m : emitted_shape "left" [AMember m]
| shape_kick m e : emitted_shape "kick" [AMember m; AEntry e]
| shape_rename p c : emitted_shape "rename" [AMember p; AMember c]
| shape_ban g u : emitted_shape "ban" [AGuild g; AUser u]
| shape_banAudit g u e : emitted_shape "banAudit" [AGuild g; AUser u; AEntry e]
| shape_unban g u : emitted_shape "unban" [AGuild g; AUser u]
| shape_unbanAudit g u e :
    emitted_shape "unbanAudit" [AGuild g; AUser u; AEntry e].

(** The guild an event belongs to and its rendered line, through the tables. *)
Definition event_guild (eventName : string) (args : list Arg) : option Guild :=
  match table_get guildResolver eventName with
  | Some resolver => resolver args
  | None => None
  end.

Definition event_line (escape : string → string) (eventName : string)
           (args : list Arg) : option string :=
  match table_get (eventMessageRenderer escape) eventName with
  | Some renderer => renderer args
  | None => None
  end.

(** The conditions of delivery, read on the settings row of the guild. *)
Definition deliverable (row : gmap string JsVal) (guild : Guild)
           (eventName : string) (channel : Channel) : Prop :=
  truthy (row !! "logs_enabled") = true
  ∧ truthy (row !! ("logs_" +:+ settingsKey eventName +:+ "_event")) = true
  ∧ ∃ v id,
      row !! ("logs_" +:+ channelType (settingsKey eventName) +:+ "_channel")
        = Some v
      ∧ truthy (Some v) = true
      ∧ toString v = Some id
      ∧ guild_channels guild !! id = Some channel
      ∧ channel_type channel = "text".

(** ** Sample data

    A guild with one text channel and one voice channel, a member, and
    audit-log entries naming that member; used to run the definitions. *)

Module Sample.

Definition alice : User :=
  {| user_id := "42"; user_tag := "Alice#0001"; user_username := "Alice" |}.

Definition general : Channel := {| channel_id := "100"; channel_type := "text" |}.
Definition lounge : Channel := {| channel_id := "200"; channel_type := "voice" |}.

Definition entry_of (action : string) (reason : option string) : AuditEntry :=
  {| entry_action := action; entry_targetType := "USER";
     entry_target_id := "42"; entry_executor_tag := "Mod#1";
     entry_reason := reason |}.

Definition kick_entry : AuditEntry := entry_of "MEMBER_KICK" (Some "spam").
Definition ban_entry : AuditEntry := entry_of "MEMBER_BAN_ADD" None.
Definition unban_entry : AuditEntry := entry_of "MEMBER_BAN_REMOVE" (Some "spam").

Definition guild_with (permitted : bool) (log : option (list AuditEntry)) : Guild :=
  {| guild_id := "7";
     guild_me_hasPermission := λ _, permitted;
     guild_audit_log := log;
     guild_channels := <["100" := general]> (<["200" := lounge]> ∅) |}.

Definition member_of (partial : bool) (guild : Guild) : Member :=
  {| member_id := "42"; member_user := alice; member_nickname := None;
     member_partial := partial; member_guild := guild |}.

(** Settings rows: everything on and routed to the text channel; routed to
    the voice channel; routed to a channel that no longer exists. *)
Definition row_to (channel : string) : gmap string JsVal :=
  <["logs_enabled" := JNum 1]>
    (<["logs_kick_event" := JNum 1]>
       (<["logs_ban_event" := JNum 1]>
          (<["logs_public_channel" := JStr channel]> ∅))).

Definition db_to (channel : string) : gmap string (gmap string JsVal) :=
  <["7" := row_to channel]> ∅.

(** The member was kicked, banned, or left on their own; the log cannot be
    read; the log query fails. *)
Definition kicked : Member := member_of false (guild_with true (Some [kick_entry])).
Definition banned : Member := member_of false (guild_with true (Some [ban_entry])).
Definition gone : Member := member_of false (guild_with true (Some [])).
Definition unseen : Member := member_of true (guild_with false (Some [kick_entry])).
Definition unqueried : Member := member_of false (guild_with true None).

Definition fetch_fails : Member → option Member := λ _, None.
Definition fetch_same : Member → option Member := Some.

End Sample.

(** What the handler does once the guild of the event and its settings
    row are known: the gate on the three settings, the channel lookup, the
    rendering and the check of the channel type, in the order of
    [#resolveChannel] and [#handleEvent]. *)
Definition deliver (escape : string → string) (guild : Guild)
           (row : gmap string JsVal) (eventName : string) (args : list Arg)
  : Delivery :=
  let key := settingsKey eventName in
  let channelKey := "logs_" +:+ channelType key +:+ "_channel" in
  if negb (truthy (row !! "logs_enabled"))
     || negb (truthy (row !! ("logs_" +:+ key +:+ "_event")))
     || negb (truthy (row !! channelKey))
  then Skipped
  else
    match (row !! channelKey ≫= toString) ≫= (λ id, guild_channels guild !! id) with
    | None => Skipped
    | Some channel =>
        let text := String.eqb (channel_type channel) "text" in
        match table_get (eventMessageRenderer escape) eventName with
        | None => if text then Fault else Skipped
        | Some renderer =>
            match renderer args with
            | None => Fault
            | Some logMessage => if text then Sent channel logMessage else Skipped
            end
        end
    end.

(** ** Messages and reply embeds *)

(** A message as the modules read it. *)
Record Message := {
  message_content : string;
  message_channel_type : string;
  message_author_bot : bool;
  message_author_avatarURL : option string;
  message_guild : option Guild;
  message_client_user_id : string;
  message_client_avatarURL : option string
}.

(** Text of an embed: a literal, a language key with its parameters, a
    check list, or a value read from a settings row ([None]:
    [undefined]). *)
#[local] Unset Elimination Schemes.
Inductive Text :=
| Raw (s : string)
| Lang (key : string) (params : list (string * Text))
| CheckList (items : list (bool * Text))
| Value (v : option JsVal).
#[local] Set Elimination Schemes.

(** [DefaultEmbed]: the embed every command reply starts from. *)
Module DefaultEmbed.

Record t := {
  lang : string;
  title : Text;
  description : Text;
  thumbnail : option string;
  color : option JsVal;
  fields : list (Text * Text)
}.

(** What the constructor is given: a command context (its message and
    language), a message, or something else. *)
Inductive Target :=
| OfContext (message : Message) (language : string)
| OfMessage (message : Message)
| Other.

Section Constructor.

(** [guild.iconURL()] and [Config.get(key)] *)
Variable guild_iconURL : Guild → option string.
Variable config_get : string → option JsVal.

(** The thumbnail functions; the outer [None] is the TypeError of reading
    [iconURL] of a missing guild, the inner one a [null] URL. *)
Definition resolveThumbnail : list (string * (Message → option (option string))) :=
  [ ("guild", λ message, guild_iconURL <$> message_guild message);
    ("user", λ message, Some (message_author_avatarURL message));
    ("self", λ message, Some (message_client_avatarURL message)) ].

Fixpoint thumbnail_function
         (table : list (string * (Message → option (option string))))
         (mode : string) : option (Message → option (option string)) :=
  match table with
  | [] => None
  | (k, f) :: rest =>
      if String.eqb mode k then Some f else thumbnail_function rest mode
  end.

(** [new DefaultEmbed(target, thumbnailMode)]; [None] is a TypeError. *)
Definition create (target : Target) (thumbnailMode : option string) : option t :=
  let thumbnailMode := default "self" thumbnailMode in
  let build (message : Message) (language : string) : option t :=
    let url : option (option string) :=
      match thumbnail_function resolveThumbnail thumbnailMode with
      | None => Some (message_client_avatarURL message)
      | Some f =>
          match f message with
          | None => None
          | Some None => Some (message_client_avatarURL message)
          | Some (Some url) => Some (Some url)
          end
      end in
    match url with
    | None => None
    | Some url =>
        Some {| lang := language;
                title := Lang "embed.default.title" [];
                description := Lang "embed.default.description" [];
                thumbnail := url;
                color := config_get "preferences.cognitum.embedColors.default";
                fields := [] |}
    end in
  match target with
  | OfContext message language => build message language
  | OfMessage message => build message "en"
  | Other => None
  end.

End Constructor.

Definition setTitle (text : Text) (e : t) : t :=
  {| lang := lang e; title := text; description := description e;
     thumbnail := thumbnail e; color := color e; fields := fields e |}.

Definition setDescription (text : Text) (e : t) : t :=
  {| lang := lang e; title := title e; description := text;
     thumbnail := thumbnail e; color := color e; fields := fields e |}.

Definition addField (name value : Text) (e : t) : t :=
  {| lang := lang e; title := title e; description := description e;
     thumbnail := thumbnail e; color := color e;
     fields := (fields e ++ [(name, value)])%list |}.

End DefaultEmbed.

(** ** The log settings command

    [LogSettingsCommand]: the command that shows and changes the settings
    the logs processor reads. *)

Module LogSettingsCommand.

(** A static object with string values: its own properties in the order
    written. *)
Definition logTypesMap : list (string * string) :=
  [ ("logs_join_event", "join");
    ("logs_left_event", "left");
    ("logs_rename_event", "rename");
    ("logs_kick_event", "kick");
    ("logs_ban_event", "ban");
    ("logs_msgdelete_event", "msg_delete");
    ("logs_msgimage_event", "msg_image");
    ("logs_msgupdate_event", "msg_update") ].

Definition logTypesInvertedMap : list (string * string) :=
  [ ("join", "logs_join_event");
    ("left", "logs_left_event");
    ("rename", "logs_rename_event");
    ("kick", "logs_kick_event");
    ("ban", "logs_ban_event");
    ("msg_delete", "logs_msgdelete_event");
    ("msg_image", "logs_msgimage_event");
    ("msg_update", "logs_msgupdate_event") ].

(** [obj[key]] for an own property; [None] is [hasOwnProperty(key) = false]. *)
Fixpoint own_property (obj : list (string * string)) (key : string)
  : option string :=
  match obj with
  | [] => None
  | (k, v) :: rest => if String.eqb key k then Some v else own_property rest key
  end.

(** [/^(enable|disable)$/.test(s)] and [/^(public|private)$/.test(s)] *)
Definition is_toggle_word (s : string) : bool :=
  String.eqb s "enable" || String.eqb s "disable".

Definition is_channel_word (s : string) : bool :=
  String.eqb s "public" || String.eqb s "private".

(** [/(public|private)/.test(s)]: the word occurs somewhere in [s]. *)
Definition mentions_channel_word (s : string) : bool :=
  match String.index 0 "public" s, String.index 0 "private" s with
  | None, None => false
  | _, _ => true
  end.

(** [\d] *)
Definition is_digit (c : ascii) : bool :=
  let n := nat_of_ascii c in (48 <=? n)%nat && (n <=? 57)%nat.

Fixpoint leading_digits (s : string) : string :=
  match s with
  | EmptyString => EmptyString
  | String c rest =>
      if is_digit c then String c (leading_digits rest) else EmptyString
  end.

(** [/(\d+)/.exec(s)?.[0] ?? null]: the first run of digits of [s]. *)
Fixpoint first_digits (s : string) : option string :=
  match s with
  | EmptyString => None
  | String c rest =>
      if is_digit c then Some (String c (leading_digits rest))
      else first_digits rest
  end.

Fixpoint all_digits (s : string) : bool :=
  match s with
  | EmptyString => true
  | String c rest => is_digit c && all_digits rest
  end.

(** [/^\d+$/.test(v)]: the value is turned into a string first, so [null]
    and [undefined] read as words and fail the test. *)
Definition is_channel_id (v : option JsVal) : bool :=
  match v with
  | None | Some JNull => false
  | Some (JNum n) =>
      negb (String.eqb (pretty n) "") && all_digits (pretty n)
  | Some (JStr s) => negb (String.eqb s "") && all_digits s
  end.

(** [v === 1], with [undefined] for a missing property *)
Definition is_one (v : option JsVal) : bool :=
  match v with
  | Some (JNum n) => (n =? 1)%Z
  | _ => false
  end.

Inductive Thrown :=
| Error (message : string)
| TypeError.

Inductive Result :=
| Return (reply : DefaultEmbed.t)
| Throw (e : Thrown).

(** What the command is run with: its arguments, its message, the language
    of the context and the key of the guild row the context holds. *)
Record Context := {
  ctx_args : list string;
  ctx_message : Message;
  ctx_lang : string;
  ctx_guild_row : string
}.

Section Command.

(** Data of platform objects the records do not carry, and the
    configuration. *)
Variable guild_name : Guild → string.
Variable guild_iconURL : Guild → option string.
Variable channel_name : Channel → string.
Variable channel_viewable : Channel → bool.
Variable config_get : string → option JsVal.

(** [new DefaultEmbed(this.context, "guild")] *)
Definition reply_embed (ctx : Context) : option DefaultEmbed.t :=
  DefaultEmbed.create guild_iconURL config_get
                      (DefaultEmbed.OfContext (ctx_message ctx) (ctx_lang ctx))
                      (Some "guild").

(** [guild.channels.cache.find(channel => channel.id === channelID)] *)
Definition find_channel (guild : Guild) (channelID : string) : option Channel :=
  snd <$> find (λ kc : string * Channel, String.eqb (channel_id kc.2) channelID)
               (map_to_list (guild_channels guild)).

(** [Guild.update({ [field]: v }, { where: { id } })] *)
Definition update (db : gmap string (gmap string JsVal)) (id field : string)
           (v : JsVal) : gmap string (gmap string JsVal) :=
  match db !! id with
  | Some row => <[id := <[field := v]> row]> db
  | None => db
  end.

Definition flag (state : bool) : JsVal := JNum (if state then 1 else 0).

Definition showLogsSettings (ctx : Context)
           (db : gmap string (gmap string JsVal)) : Result :=
  match reply_embed ctx, db !! ctx_guild_row ctx, message_guild (ctx_message ctx) with
  | Some replyEmbed, Some guild, Some messageGuild =>
      let logsEnabled := is_one (guild !! "logs_enabled") in
      let publicChannelSet := is_channel_id (guild !! "logs_public_channel") in
      let privateChannelSet := is_channel_id (guild !! "logs_private_channel") in
      let generalSettings :=
        [ (logsEnabled,
           Lang ("command.log.state." +:+
                 (if logsEnabled then "enabled" else "disabled")) []);
          (is_channel_id (guild !! "logs_public_channel"),
           Lang ("command.log.channel.public." +:+
                 (if publicChannelSet then "enabled" else "disabled"))
                [("channelId", Value (guild !! "logs_public_channel"))]);
          (is_channel_id (guild !! "logs_private_channel"),
           Lang ("command.log.channel.private." +:+
                 (if privateChannelSet then "enabled" else "disabled"))
                [("channelId", Value (guild !! "logs_private_channel"))]) ] in
      let eventsList :=
        map (λ entry : string * string,
               (is_one (guild !! entry.1),
                Lang ("command.log.events." +:+ entry.2) []))
            logTypesMap in
      Return
        (DefaultEmbed.addField
           (Lang "command.log.settingsEvents" []) (CheckList eventsList)
           (DefaultEmbed.setDescription
              (CheckList generalSettings)
              (DefaultEmbed.setTitle
                 (Lang "command.log.settingsTitle"
                       [("guildName", Raw (guild_name messageGuild))])
                 replyEmbed)))
  | _, _, _ => Throw TypeError
  end.

Definition toggleSetting (ctx : Context) (db : gmap string (gmap string JsVal))
           (settingCode : string) (state : bool)
  : Result * gmap string (gmap string JsVal) :=
  match own_property logTypesInvertedMap settingCode with
  | None => (Throw (Error "Incorrect setting code passed!"), db)
  | Some fieldCode =>
      match db !! ctx_guild_row ctx with
      | None => (Throw TypeError, db)
      | Some guildInstance =>
          let db' :=
            <[ctx_guild_row ctx := <[fieldCode := flag state]> guildInstance]> db in
          match reply_embed ctx with
          | None => (Throw TypeError, db')
          | Some reply =>
              (Return
                 (DefaultEmbed.setDescription
                    (Lang "command.log.eventChanged.description"
                          [("feature",
                            CheckList
                              [(state,
                                Lang ("command.log.events." +:+ settingCode) [])])])
                    (DefaultEmbed.setTitle
                       (Lang "command.log.eventChanged.title" []) reply)),
               db')
          end
      end
  end.

Definition setLogChannel (ctx : Context) (db : gmap string (gmap string JsVal))
           (type : string) (channelID : option string)
  : Result * gmap string (gmap string JsVal) :=
  if negb (mentions_channel_word type)
  then (Throw (Error "Incorrect channel type for logs!"), db)
  else
    let checked : Thrown + (option string * option Channel) :=
      match channelID with
      | None => inr (None, None)
      | Some text =>
          match first_digits text with
          | None =>
              inl (Error
                "Incorrect channel ID passed! This argument must contains Channel ID!")
          | Some id =>
              match message_guild (ctx_message ctx)
                    ≫= (λ guild, find_channel guild id) with
              | Some targetChannel =>
                  if negb (String.eqb (channel_type targetChannel) "text")
                     || negb (channel_viewable targetChannel)
                  then inl (Error
                    "This channel is not exist or it is not viewable by bot!")
                  else inr (Some id, Some targetChannel)
              | None =>
                  inl (Error
                    "This channel is not exist or it is not viewable by bot!")
              end
          end
      end in
    match checked with
    | inl e => (Throw e, db)
    | inr (channelID, targetChannel) =>
        match message_guild (ctx_message ctx) with
        | None => (Throw TypeError, db)
        | Some guild =>
            let db' :=
              update db (guild_id guild) ("logs_" +:+ type +:+ "_channel")
                     (match channelID with
                      | Some id => JStr id
                      | None => JNull
                      end) in
            let isText :=
              match targetChannel with
              | Some channel => String.eqb (channel_type channel) "text"
              | None => false
              end in
            match reply_embed ctx with
            | None => (Throw TypeError, db')
            | Some replyEmbed =>
                (Return
                   (DefaultEmbed.setDescription
                      (Lang ("command.log.channel." +:+ type +:+ "." +:+
                             (if isText then "set" else "reset"))
                            [("channelName",
                              match targetChannel with
                              | Some channel => Raw (channel_name channel)
                              | None => Value None
                              end)])
                      (DefaultEmbed.setTitle
                         (Raw "command.log.settingsChangedTitle") replyEmbed)),
                 db')
            end
        end
    end.

Definition resetLogChannel (ctx : Context) (db : gmap string (gmap string JsVal))
  : Result * gmap string (gmap string JsVal) :=
  match ctx_args ctx with
  | type :: _ => setLogChannel ctx db type None
  | [] => (Throw TypeError, db)
  end.

Definition toggleLogging (ctx : Context) (db : gmap string (gmap string JsVal))
           (state : bool) : Result * gmap string (gmap string JsVal) :=
  match db !! ctx_guild_row ctx with
  | None => (Throw TypeError, db)
  | Some guildInstance =>
      let db' :=
        <[ctx_guild_row ctx := <["logs_enabled" := flag state]> guildInstance]> db in
      let word := if state then "on" else "off" in
      match reply_embed ctx with
      | None => (Throw TypeError, db')
      | Some reply =>
          (Return
             (DefaultEmbed.setDescription
                (Lang ("command.log.toggle." +:+ word +:+ ".description") [])
                (DefaultEmbed.setTitle
                   (Lang ("command.log.toggle." +:+ word +:+ ".title") []) reply)),
           db')
      end
  end.

Definition run (ctx : Context) (db : gmap string (gmap string JsVal))
  : Result * gmap string (gmap string JsVal) :=
  match ctx_args ctx with
  | [] => (showLogsSettings ctx db, db)
  | [a] =>
      if is_toggle_word a then toggleLogging ctx db (String.eqb a "enable")
      else if is_channel_word a then resetLogChannel ctx db
      else (Throw (Error "Incorrect command usage!"), db)
  | [a; b] =>
      if is_toggle_word a then toggleSetting ctx db b (String.eqb a "enable")
      else if is_channel_word a then setLogChannel ctx db a (Some b)
      else (Throw (Error "Incorrect command usage!"), db)
  | _ => (Throw (Error "Incorrect command usage!"), db)
  end.

End Command.

End LogSettingsCommand.

(** ** The message processor

    [MessageProcessor]: what is done with an incoming message. *)

Module MessageProcessor.

(** What a command gives back ([MessageParser.resolve]): an embed, a string
    or anything else. *)
Inductive CommandResult :=
| ResultEmbed (embed : DefaultEmbed.t)
| ResultString (s : string)
| ResultOther.

(** What is passed to [message.channel.send]. *)
Inductive Payload :=
| SendEmbed (embed : DefaultEmbed.t)
| SendText (text : string).

(** What handling did: the sends attempted, in order, the lines logged, and
    whether the returned promise is rejected. *)
Record Handling := {
  attempts : list Payload;
  logged : list (string * string);
  rejected : bool
}.

Definition idle : Handling :=
  {| attempts := []; logged := []; rejected := false |}.

Definition warning : Payload :=
  SendText ":warning: Unresolved command result handling error!".

Definition failure_log : string * string :=
  ("error", "Failed to send command execution result!").

(** The text a value becomes inside a template literal. *)
Definition interpolate (v : option JsVal) : string :=
  match v with
  | None => "undefined"
  | Some JNull => "null"
  | Some (JNum n) => pretty n
  | Some (JStr s) => s
  end.

(** [a ?? b] *)
Definition nullish_or (a b : option JsVal) : option JsVal :=
  match a with
  | None | Some JNull => b
  | Some _ => a
  end.

Definition with_content (message : Message) (content : string) : Message :=
  {| message_content := content;
     message_channel_type := message_channel_type message;
     message_author_bot := message_author_bot message;
     message_author_avatarURL := message_author_avatarURL message;
     message_guild := message_guild message;
     message_client_user_id := message_client_user_id message;
     message_client_avatarURL := message_client_avatarURL message |}.

Section Processor.

(** [new MessageParser(message).resolve()]: the command the message names is
    run on the table of guild rows, which it may change; [None] when it
    throws. *)
Variable resolve :
  gmap string (gmap string JsVal) → Message →
  option CommandResult * gmap string (gmap string JsVal).

(** Whether the n-th send of the handling (counted from 0) succeeds. *)
Variable send_ok : nat → bool.

Variable defaults : gmap string JsVal.
Variable config_get : string → option JsVal.

(** [#handleGuildMessageResult], for a handling that has made [n] sends. *)
Definition handleGuildMessageResult (n : nat) (result : CommandResult) : Handling :=
  let first :=
    match result with
    | ResultEmbed embed => Some (SendEmbed embed)
    | ResultString s =>
        if (0 <? String.length s)%nat then Some (SendText s) else None
    | ResultOther => None
    end in
  match first with
  | None => idle
  | Some payload =>
      if send_ok n
      then {| attempts := [payload]; logged := []; rejected := false |}
      else {| attempts := [payload; warning]; logged := [failure_log];
              rejected := negb (send_ok (S n)) |}
  end.

Definition handleGuildMessage (db : gmap string (gmap string JsVal))
           (message : Message) : Handling * gmap string (gmap string JsVal) :=
  let '(resolved, db') := resolve db message in
  (match resolved with
   | None =>
       {| attempts := [warning]; logged := [failure_log];
          rejected := negb (send_ok 0) |}
   | Some result =>
       let inner := handleGuildMessageResult 0 result in
       if rejected inner
       then {| attempts := (attempts inner ++ [warning])%list;
               logged := (logged inner ++ [failure_log])%list;
               rejected := negb (send_ok (List.length (attempts inner))) |}
       else inner
   end,
   db').

(** [#handleMention]; a message without a guild has no [guild.id] to read. *)
Definition handleMention (db : gmap string (gmap string JsVal)) (message : Message)
  : Handling * gmap string (gmap string JsVal) :=
  match message_guild message with
  | None => ({| attempts := []; logged := []; rejected := true |}, db)
  | Some messageGuild =>
      let '(guild, db') := findOrCreate defaults db (guild_id messageGuild) in
      let prefix :=
        nullish_or (guild !! "prefix") (config_get "preferences.cognitum.prefix") in
      handleGuildMessage db' (with_content message (interpolate prefix +:+ "about"))
  end.

Definition isMentionOnly (message : Message) : bool :=
  JsString.includes
    [ "<@" +:+ message_client_user_id message +:+ ">";
      "<@!" +:+ message_client_user_id message +:+ ">" ]
    (message_content message).

Definition handleMessage (db : gmap string (gmap string JsVal)) (message : Message)
  : Handling * gmap string (gmap string JsVal) :=
  if negb (String.eqb (message_channel_type message) "text") then (idle, db)
  else if message_author_bot message then (idle, db)
  else if isMentionOnly message then handleMention db message
  else handleGuildMessage db message.

End Processor.

End MessageProcessor.

(** ** The reminder task

    [ReminderTask.run]: a direct message that reminds a user. *)

Module ReminderTask.

(** [discordClient.users.fetch(userId)] *)
Inductive Fetched :=
| FetchRejects
| FetchNothing
| FetchUser (user : User).

(** The direct-message embed as the task fills it in. *)
Record Reminder := {
  reminder_to : User;
  reminder_title : Text;
  reminder_description : Text;
  reminder_footer : Text;
  reminder_timestamp : Z
}.

Record Outcome := {
  sent : option Reminder;
  logged : list (string * string);
  rejected : bool
}.

(** [!messageText || !messageText?.length] *)
Definition no_text (messageText : option JsVal) : bool :=
  match messageText with
  | Some (JStr s) => (String.length s =? 0)%nat
  | _ => true
  end.

Section Task.

Variable fetch : JsVal → Fetched.
Variable send_ok : Reminder → bool.
Variable now : Z.

Definition run (id : string) (payload : option (gmap string JsVal)) : Outcome :=
  let userId := payload ≫= (λ p, p !! "userId") in
  let messageText := payload ≫= (λ p, p !! "message") in
  match userId with
  | Some userId' =>
      if negb (truthy userId)
      then {| sent := None;
              logged := [("error", "User ID is not set! Task ID: " +:+ id +:+ ".")];
              rejected := false |}
      else
        match fetch userId' with
        | FetchRejects => {| sent := None; logged := []; rejected := true |}
        | FetchNothing =>
            {| sent := None;
               logged := [("error", "User not found! ID: "
                                    +:+ MessageProcessor.interpolate userId +:+ ".")];
               rejected := false |}
        | FetchUser targetUser =>
            let embed :=
              {| reminder_to := targetUser;
                 reminder_title := Lang "embed.tasks.reminder.title" [];
                 reminder_description :=
                   if no_text messageText
                   then Lang "embed.tasks.reminder.descriptionEmpty" []
                   else Lang "embed.tasks.reminder.description"
                             [("reminderMessage", Value messageText)];
                 reminder_footer := Lang "embed.tasks.reminder.footer" [];
                 reminder_timestamp := now |} in
            {| sent := Some embed;
               logged :=
                 if send_ok embed then []
                 else [("warn", "Task " +:+ id
                                +:+ " skipped: Failed to deliver message to user!")];
               rejected := false |}
        end
  | None =>
      {| sent := None;
         logged := [("error", "User ID is not set! Task ID: " +:+ id +:+ ".")];
         rejected := false |}
  end.

End Task.

End ReminderTask.

(** ** Sample data for the command, the messages and the task *)

Module SampleCommand.

Definition guild : Guild := Sample.guild_with true (Some [Sample.kick_entry]).

Definition guild_name : Guild → string := λ _, "Cognitum".
Definition guild_iconURL : Guild → option string := λ _, None.
Definition channel_name : Channel → string := λ _, "general".
Definition channel_viewable : Channel → bool := λ _, true.
Definition config_get : string → option JsVal := λ _, Some (JStr "!").

Definition message_of (content : string) : Message :=
  {| message_content := content;
     message_channel_type := "text";
     message_author_bot := false;
     message_author_avatarURL := None;
     message_guild := Some guild;
     message_client_user_id := "999";
     message_client_avatarURL := Some "https://cdn.example/bot.png" |}.

Definition context_of (args : list string) : LogSettingsCommand.Context :=
  {| LogSettingsCommand.ctx_args := args;
     LogSettingsCommand.ctx_message := message_of "!log";
     LogSettingsCommand.ctx_lang := "en";
     LogSettingsCommand.ctx_guild_row := "7" |}.

(** The sample member after taking the nickname "Alice". *)
Definition renamed : Member :=
  {| member_id := "42"; member_user := Sample.alice;
     member_nickname := Some "Alice"; member_partial := false;
     member_guild := guild |}.

(** A command that answers every message with the same text, and a channel
    that refuses every send. *)
Definition answers (text : string)
  : gmap string (gmap string JsVal) → Message →
    option MessageProcessor.CommandResult * gmap string (gmap string JsVal) :=
  λ db _, (Some (MessageProcessor.ResultString text), db).
Definition throws
  : gmap string (gmap string JsVal) → Message →
    option MessageProcessor.CommandResult * gmap string (gmap string JsVal) :=
  λ db _, (None, db).

(** The command [log disable], whatever the message: it writes the master
    flag of guild 7 and answers with a text. *)
Definition disables
  : gmap string (gmap string JsVal) → Message →
    option MessageProcessor.CommandResult * gmap string (gmap string JsVal) :=
  λ db _, (Some (MessageProcessor.ResultString "done"),
           LogSettingsCommand.update db "7" "logs_enabled" (JNum 0)).
Definition always (ok : bool) : nat → bool := λ _, ok.

Definition payload_of (userId message : JsVal) : gmap string JsVal :=
  <["userId" := userId]> (<["message" := message]> ∅).

Definition user_lookup : JsVal → ReminderTask.Fetched :=
  λ v, match v with
       | JStr "42" => ReminderTask.FetchUser Sample.alice
       | JStr "0" => ReminderTask.FetchRejects
       | _ => ReminderTask.FetchNothing
       end.

End SampleCommand.

(** * Properties *)

(** ** Shapes of emitted events *)

Lemma resolveMemberRemove_shape fetch member name args :
  resolveMemberRemove fetch member = Emit name args → emitted_shape name args.
Proof.
  unfold resolveMemberRemove.
  destruct (completed fetch member) as [m|]; [|discriminate].
  destruct (negb _).
  { intros [= <- <-]. constructor. }
  destruct (fetchAuditLogs _ _) as [entries|]; [|discriminate].
  destruct (find _ entries) as [entry|].
  - destruct (String.eqb _ _); [|discriminate].
    intros [= <- <-]. constructor.
  - intros [= <- <-]. constructor.
Qed.

Lemma resolveBanManagementEvent_cases eventName guild user :
  resolveBanManagementEvent eventName guild user = Reject
  ∨ resolveBanManagementEvent eventName guild user
    = Emit eventName [AGuild guild; AUser user]
  ∨ ∃ entry, resolveBanManagementEvent eventName guild user
             = Emit (eventName +:+ "Audit") [AGuild guild; AUser user; AEntry entry].
Proof.
  unfold resolveBanManagementEvent.
  destruct (negb _); [auto|].
  destruct (fetchAuditLogs _ _) as [entries|]; [|auto].
  destruct (find _ entries) as [entry|]; eauto.
Qed.

Lemma proxyDiscordEvents_shape fetch ev name args :
  proxyDiscordEvents fetch ev = Emit name args → emitted_shape name args.
Proof.
  destruct ev as [m|m|p c|g u|g u]; simpl.
  - intros [= <- <-]. constructor.
  - apply resolveMemberRemove_shape.
  - unfold resolveMemberUpdate. case_bool_decide; [discriminate|].
    intros [= <- <-]. constructor.
  - destruct (resolveBanManagementEvent_cases "ban" g u) as [H|[H|[e H]]];
      rewrite H; [discriminate| |]; intros [= <- <-]; constructor.
  - destruct (resolveBanManagementEvent_cases "unban" g u) as [H|[H|[e H]]];
      rewrite H; [discriminate| |]; intros [= <- <-]; constructor.
Qed.

Lemma shape_has_guild name args :
  emitted_shape name args → ∃ guild, event_guild name args = Some guild.
Proof. destruct 1; eexists; reflexivity. Qed.

Lemma shape_has_line escape name args :
  emitted_shape name args → ∃ line, event_line escape name args = Some line.
Proof. destruct 1; eexists; reflexivity. Qed.

(** ** Delivery *)

Section Delivery.

Variable escape : string → string.
Variable defaults : gmap string JsVal.

(** The handler, once the guild and the line of the event are known. *)
Lemma handleEvent_unfold db eventName args guild line :
  event_guild eventName args = Some guild →
  event_line escape eventName args = Some line →
  let row := (findOrCreate defaults db (guild_id guild)).1 in
  (handleEvent escape defaults db eventName args).1 =
    if negb (truthy (row !! "logs_enabled"))
       || negb (truthy (row !! ("logs_" +:+ settingsKey eventName +:+ "_event")))
       || negb (truthy (row !! ("logs_" +:+ channelType (settingsKey eventName)
                                +:+ "_channel")))
    then Skipped
    else
      match ((row !! ("logs_" +:+ channelType (settingsKey eventName) +:+ "_channel"))
               ≫= toString) ≫= (λ id, guild_channels guild !! id) with
      | None => Skipped
      | Some channel =>
          if String.eqb (channel_type channel) "text"
          then Sent channel line else Skipped
      end.
Proof.
  unfold event_guild, event_line, handleEvent, resolveChannel.
  destruct (table_get guildResolver eventName) as [resolver|]; [|discriminate].
  intros ->.
  destruct (table_get (eventMessageRenderer escape) eventName)
    as [renderer|]; [|discriminate].
  intros ->. simpl.
  destruct (findOrCreate defaults db (guild_id guild)) as [row db'] eqn:Hrow.
  simpl.
  destruct (truthy (row !! "logs_enabled")); simpl; [|done].
  destruct (truthy (row !! ("logs_" +:+ settingsKey eventName +:+ "_event")));
    simpl; [|done].
  destruct (row !! ("logs_" +:+ channelType (settingsKey eventName) +:+ "_channel"))
    as [v|] eqn:Hv; [|done].
  destruct v as [|n|s]; simpl; [done| |].
  - destruct (n =? 0)%Z; simpl; [done|].
    destruct (guild_channels guild !! pretty n) as [channel|]; simpl; [|done].
    destruct (String.eqb _ _); done.
  - destruct (String.eqb s ""); simpl; [done|].
    destruct (guild_channels guild !! s) as [channel|]; simpl; [|done].
    destruct (String.eqb _ _); done.
Qed.

(** Closes the goal of a branch in which nothing is sent: the outcome
    is [Skipped] and one of the conditions is contradicted. *)
Local Ltac skipped_case :=
  split;
  [ intros ? ?; split;
    [ discriminate
    | intros [(? & ? & ? & ? & ? & ? & ? & ? & ?) _]; congruence ]
  | split; [ reflexivity | discriminate ] ].

(** C1: a log event emitted by the proxy is sent exactly when logging is
    enabled for the guild, the flag of the event's settings key is on, a
    channel identifier is configured for the category of that key, the
    identifier is found in the guild's channel cache and the channel is a
    text channel; the message is the rendered line of the event.  In every
    other case nothing is sent, and the handler never fails. *)
Theorem handleEvent_delivers_iff_conditions
        (fetch : Member → option Member) (db : gmap string (gmap string JsVal))
        (ev : DiscordEvent) (eventName : string) (args : list Arg) :
  proxyDiscordEvents fetch ev = Emit eventName args →
  ∃ guild line,
    event_guild eventName args = Some guild
    ∧ event_line escape eventName args = Some line
    ∧ let row := (findOrCreate defaults db (guild_id guild)).1 in
      let outcome := (handleEvent escape defaults db eventName args).1 in
      (∀ channel logMessage,
          outcome = Sent channel logMessage
          ↔ deliverable row guild eventName channel ∧ logMessage = line)
      ∧ ((¬ ∃ channel, deliverable row guild eventName channel) →
         outcome = Skipped)
      ∧ outcome ≠ Fault.
Proof.
  intros Hemit. apply proxyDiscordEvents_shape in Hemit.
  destruct (shape_has_guild _ _ Hemit) as [guild Hguild].
  destruct (shape_has_line escape _ _ Hemit) as [line Hline].
  exists guild, line. split; [done|]. split; [done|].
  intros row outcome. subst outcome.
  rewrite (handleEvent_unfold db _ _ _ _ Hguild Hline). fold row.
  unfold deliverable.
  destruct (truthy (row !! "logs_enabled")) eqn:Henabled;
    cbn [negb orb]; [|skipped_case].
  destruct (truthy (row !! ("logs_" +:+ settingsKey eventName +:+ "_event")))
    eqn:Hflag; cbn [negb orb]; [|skipped_case].
  destruct (row !! ("logs_" +:+ channelType (settingsKey eventName) +:+ "_channel"))
    as [v|] eqn:Hv; [|skipped_case].
  destruct (truthy (Some v)) eqn:Htruthy; cbn [negb orb]; [|skipped_case].
  cbn [mbind option_bind].
  destruct (toString v) as [id|] eqn:Hid; cbn [mbind option_bind];
    [|skipped_case].
  destruct (guild_channels guild !! id) as [channel|] eqn:Hchannel;
    [|skipped_case].
  destruct (String.eqb (channel_type channel) "text") eqn:Htype.
  - apply String.eqb_eq in Htype.
    split; [|split; [|discriminate]].
    + intros channel' logMessage. split.
      * intros [= <- <-]. split; [|reflexivity].
        do 2 (split; [reflexivity|]). exists v, id. auto.
      * intros [(_ & _ & v' & id' & Hv' & _ & Hid' & Hch' & _) ->].
        congruence.
    + intros Hnone. exfalso. apply Hnone. exists channel.
      do 2 (split; [reflexivity|]). exists v, id. auto.
  - apply String.eqb_neq in Htype. skipped_case.
Qed.

End Delivery.

(** ** Audit correlation *)

Lemma contains_intro (pre sub post : string) :
  JsString.contains sub (pre +:+ sub +:+ post).
Proof. exists pre, post. reflexivity. Qed.

Lemma append_assoc (a b c : string) : (a +:+ b) +:+ c = a +:+ (b +:+ c).
Proof.
  induction a as [|x a IH]; [reflexivity|].
  change (String x ((a +:+ b) +:+ c) = String x (a +:+ (b +:+ c))).
  by rewrite IH.
Qed.

Lemma append_empty_r (a : string) : a +:+ "" = a.
Proof.
  induction a as [|x a IH]; [reflexivity|].
  change (String x (a +:+ "") = String x a). by rewrite IH.
Qed.

Lemma removal_entry_true id e :
  removal_entry id e = true
  ↔ In (entry_action e) ["MEMBER_KICK"; "MEMBER_BAN_ADD"; "MEMBER_BAN_REMOVE"]
    ∧ entry_targetType e = "USER" ∧ entry_target_id e = id.
Proof.
  unfold removal_entry, targets, JsString.includes.
  rewrite !andb_true_iff, existsb_exists, !String.eqb_eq.
  split.
  - intros [(a & Hin & Heq) [? ?]]. apply String.eqb_eq in Heq. by subst.
  - intros (Hin & ? & ?). split; [|done].
    exists (entry_action e). split; [done|]. apply String.eqb_refl.
Qed.

Lemma targets_true id e :
  targets id e = true ↔ entry_targetType e = "USER" ∧ entry_target_id e = id.
Proof. unfold targets. by rewrite andb_true_iff, !String.eqb_eq. Qed.

Lemma find_None_iff {A} (f : A → bool) (l : list A) :
  find f l = None ↔ ∀ x, In x l → f x = false.
Proof.
  split; [apply find_none|].
  induction l as [|a l IH]; simpl; [done|].
  intros H. rewrite (H a) by auto. apply IH. auto.
Qed.

Section Correlation.

Variable fetch : Member → option Member.
Variable escape : string → string.

(** When the entry the search finds for a removed member is a kick, the
    event is [kick] with the member and that entry, and the kick line holds
    the executor's tag, as the renderer writes it (through [escape]),
    followed by the entry's reason when it has a non-empty one and by the
    no-reason marker otherwise. *)
Lemma memberRemove_kick_entry (member0 member : Member)
        (entries : list AuditEntry) (entry : AuditEntry) :
  completed fetch member0 = Some member →
  guild_me_hasPermission (member_guild member) "VIEW_AUDIT_LOG" = true →
  fetchAuditLogs (member_guild member) None = Some entries →
  find (removal_entry (member_id member)) entries = Some entry →
  entry_action entry = "MEMBER_KICK" →
  resolveMemberRemove fetch member0 = Emit "kick" [AMember member; AEntry entry]
  ∧ entry_target_id entry = member_id member
  ∧ ∃ line,
      event_line escape "kick" [AMember member; AEntry entry] = Some line
      ∧ JsString.contains (" by " +:+ escape (entry_executor_tag entry)) line
      ∧ match entry_reason entry with
        | Some reason =>
            if String.eqb reason ""
            then JsString.contains " with no reason" line
            else JsString.contains (" with reason " +:+ escape reason) line
        | None => JsString.contains " with no reason" line
        end.
Proof.
  intros Hmember Hperm Hlogs Hfind Haction.
  split; [|split].
  - unfold resolveMemberRemove.
    rewrite Hmember, Hperm, Hlogs, Hfind, Haction. reflexivity.
  - apply find_some in Hfind as [_ Hmatch].
    apply removal_entry_true in Hmatch. tauto.
  - eexists. split; [reflexivity|].
    unfold reason_clause. split.
    + exists ":boot: [KICK]". eexists.
      rewrite !append_assoc. reflexivity.
    + destruct (entry_reason entry) as [reason|].
      * destruct reason as [|c reason].
        -- exists (":boot: [KICK] by " +:+ escape (entry_executor_tag entry)).
           eexists. rewrite !append_assoc. reflexivity.
        -- exists (":boot: [KICK] by " +:+ escape (entry_executor_tag entry)).
           eexists. cbn [String.length Nat.eqb String.eqb].
           replace (String.eqb (String c reason) "") with false
             by (symmetry; by apply String.eqb_neq).
           rewrite !append_assoc. reflexivity.
      * exists (":boot: [KICK] by " +:+ escape (entry_executor_tag entry)).
        eexists. rewrite !append_assoc. reflexivity.
Qed.

Lemma memberRemove_names (member0 : Member) (eventName : string) (args : list Arg) :
  resolveMemberRemove fetch member0 = Emit eventName args →
  eventName = "left" ∨ eventName = "kick".
Proof.
  unfold resolveMemberRemove.
  destruct (completed fetch member0) as [m'|]; [|done].
  destruct (negb _); [intros [= <- <-]; auto|].
  destruct (fetchAuditLogs _ _) as [es|]; [|done].
  destruct (find _ es) as [e|]; [|intros [= <- <-]; auto].
  destruct (String.eqb _ _); [|done]. intros [= <- <-]; auto.
Qed.

(** C7: when the entry found for a removed member is a ban or an unban,
    the member-remove path emits nothing; whatever the log holds, that path
    only ever emits [left] or [kick], and an event whose settings key is
    [ban] comes from a ban or unban platform event. *)
Theorem memberRemove_ban_entry_silent (member0 member : Member)
        (entries : list AuditEntry) (entry : AuditEntry)
        (ev : DiscordEvent) (eventName : string) (args : list Arg) :
  completed fetch member0 = Some member →
  guild_me_hasPermission (member_guild member) "VIEW_AUDIT_LOG" = true →
  fetchAuditLogs (member_guild member) None = Some entries →
  find (removal_entry (member_id member)) entries = Some entry →
  entry_action entry = "MEMBER_BAN_ADD" ∨ entry_action entry = "MEMBER_BAN_REMOVE" →
  resolveMemberRemove fetch member0 = NoEmit
  ∧ (resolveMemberRemove fetch member0 = Emit eventName args →
     eventName = "left" ∨ eventName = "kick")
  ∧ (proxyDiscordEvents fetch ev = Emit eventName args →
     settingsKey eventName = "ban" →
     ∃ guild user, ev = guildBanAdd guild user ∨ ev = guildBanRemove guild user).
Proof.
  intros Hmember Hperm Hlogs Hfind Haction.
  assert (Hsilent : resolveMemberRemove fetch member0 = NoEmit).
  { unfold resolveMemberRemove. rewrite Hmember, Hperm, Hlogs, Hfind.
    by destruct Haction as [-> | ->]. }
  split; [done|]. split.
  - apply memberRemove_names.
  - destruct ev as [m|m|p c|g u|g u]; simpl.
    + by intros [= <- <-].
    + intros Hemit Hkey. exfalso.
      destruct (memberRemove_names _ _ _ Hemit) as [-> | ->];
        vm_compute in Hkey; discriminate.
    + unfold resolveMemberUpdate. case_bool_decide; [done|].
      by intros [= <- <-].
    + eauto.
    + eauto.
Qed.

(** C6, as the code has it: for a member whose state is complete (or was
    completed) and whose log query, when one is made, succeeds, the event is
    [left] exactly when the bot may not view the log or no entry with one of
    the three removal actions targets the member; without the permission
    the event is never [kick]. *)
Theorem memberRemove_left_iff (member0 member : Member) :
  completed fetch member0 = Some member →
  (guild_me_hasPermission (member_guild member) "VIEW_AUDIT_LOG" = true →
   is_Some (guild_audit_log (member_guild member))) →
  (resolveMemberRemove fetch member0 = Emit "left" [AMember member]
   ↔ guild_me_hasPermission (member_guild member) "VIEW_AUDIT_LOG" = false
     ∨ ∀ entries, guild_audit_log (member_guild member) = Some entries →
         ¬ ∃ e, In e entries
                ∧ In (entry_action e)
                     ["MEMBER_KICK"; "MEMBER_BAN_ADD"; "MEMBER_BAN_REMOVE"]
                ∧ entry_targetType e = "USER"
                ∧ entry_target_id e = member_id member)
  ∧ (∀ args, resolveMemberRemove fetch member0 = Emit "left" args →
             args = [AMember member])
  ∧ (guild_me_hasPermission (member_guild member) "VIEW_AUDIT_LOG" = false →
     ∀ args, resolveMemberRemove fetch member0 ≠ Emit "kick" args).
Proof.
  intros Hmember Hquery. unfold resolveMemberRemove, fetchAuditLogs.
  rewrite Hmember.
  destruct (guild_me_hasPermission (member_guild member) "VIEW_AUDIT_LOG")
    eqn:Hperm; cbn [negb].
  - destruct (Hquery eq_refl) as [entries Hentries]. rewrite Hentries.
    destruct (find (removal_entry (member_id member)) entries) as [e|] eqn:Hfind.
    + split; [|split; [|done]].
      * split.
        -- destruct (String.eqb _ _); done.
        -- intros [?|Hnone]; [done|]. exfalso.
           apply (Hnone entries eq_refl).
           apply find_some in Hfind as [Hin Hmatch].
           apply removal_entry_true in Hmatch. exists e. tauto.
      * intros args. destruct (String.eqb _ _); done.
    + split; [|split; [|done]].
      * split; [|done]. intros _. right. intros entries' [= <-] (e & Hin & Hmatch).
        apply (proj1 (find_None_iff _ _)) with (x := e) in Hfind; [|done].
        apply (proj2 (removal_entry_true _ _)) in Hmatch. congruence.
      * by intros args [= <-].
  - split; [|split].
    + split; [auto|done].
    + by intros args [= <-].
    + done.
Qed.

Lemma resolveMemberRemove_traced_result (member0 : Member) :
  (resolveMemberRemove_traced fetch member0).1 = resolveMemberRemove fetch member0.
Proof.
  unfold resolveMemberRemove_traced, resolveMemberRemove.
  destruct (completed fetch member0) as [member|]; [|done].
  destruct (negb _); [done|].
  destruct (fetchAuditLogs _ _) as [entries|]; [|done].
  destruct (find _ entries) as [entry|]; [|done].
  by destruct (String.eqb _ _).
Qed.

Lemma resolveBanManagementEvent_traced_result eventName guild user :
  (resolveBanManagementEvent_traced eventName guild user).1
  = resolveBanManagementEvent eventName guild user.
Proof.
  unfold resolveBanManagementEvent_traced, resolveBanManagementEvent.
  destruct (negb _); [done|].
  destruct (fetchAuditLogs _ _) as [entries|]; [|done].
  by destruct (find _ entries).
Qed.

(** C3, as the code has it: a missing log-view permission degrades to the
    bare kind without a query of the log, always for a ban or unban and,
    for a removed member, when the member's state is complete or was
    completed; a member completion that fails, whatever the permission, or
    a log query that fails makes the correlator reject, and no event is
    emitted; and no request is repeated: a step awaits at most one member
    fetch and at most one log query. *)
Theorem correlation_failures (member0 member : Member) (eventName : string)
        (guild : Guild) (user : User) :
  (completed fetch member0 = Some member →
   guild_me_hasPermission (member_guild member) "VIEW_AUDIT_LOG" = false →
   resolveMemberRemove fetch member0 = Emit "left" [AMember member]
   ∧ List.filter is_log_query (resolveMemberRemove_traced fetch member0).2 = [])
  ∧ (guild_me_hasPermission guild "VIEW_AUDIT_LOG" = false →
     resolveBanManagementEvent eventName guild user
     = Emit eventName [AGuild guild; AUser user]
     ∧ (resolveBanManagementEvent_traced eventName guild user).2 = [])
  ∧ (completed fetch member0 = None →
     resolveMemberRemove fetch member0 = Reject
     ∧ (resolveMemberRemove_traced fetch member0).2 = [FetchMember member0])
  ∧ (completed fetch member0 = Some member →
     guild_me_hasPermission (member_guild member) "VIEW_AUDIT_LOG" = true →
     guild_audit_log (member_guild member) = None →
     resolveMemberRemove fetch member0 = Reject)
  ∧ (guild_me_hasPermission guild "VIEW_AUDIT_LOG" = true →
     guild_audit_log guild = None →
     resolveBanManagementEvent eventName guild user = Reject)
  ∧ (resolveMemberRemove_traced fetch member0).1 = resolveMemberRemove fetch member0
  ∧ (resolveBanManagementEvent_traced eventName guild user).1
    = resolveBanManagementEvent eventName guild user
  ∧ (List.length (List.filter is_member_fetch
                         (resolveMemberRemove_traced fetch member0).2) ≤ 1)%nat
  ∧ (List.length (List.filter is_log_query
                         (resolveMemberRemove_traced fetch member0).2) ≤ 1)%nat
  ∧ (List.length (resolveBanManagementEvent_traced eventName guild user).2 ≤ 1)%nat.
Proof.
  split; [|split; [|split; [|split; [|split; [|split; [|split]]]]]].
  - intros Hmember Hperm. unfold resolveMemberRemove, resolveMemberRemove_traced.
    rewrite Hmember, Hperm. cbn [negb snd]. split; [done|].
    by destruct (member_partial member0).
  - intros Hperm. unfold resolveBanManagementEvent, resolveBanManagementEvent_traced.
    by rewrite Hperm.
  - intros Hmember. unfold resolveMemberRemove, resolveMemberRemove_traced.
    rewrite Hmember. split; [done|].
    unfold completed in Hmember. by destruct (member_partial member0).
  - intros Hmember Hperm Hlog. unfold resolveMemberRemove, fetchAuditLogs.
    by rewrite Hmember, Hperm, Hlog.
  - intros Hperm Hlog. unfold resolveBanManagementEvent, fetchAuditLogs.
    by rewrite Hperm, Hlog.
  - apply resolveMemberRemove_traced_result.
  - apply resolveBanManagementEvent_traced_result.
  - unfold resolveMemberRemove_traced, resolveBanManagementEvent_traced.
    destruct (member_partial member0);
      (destruct (completed fetch member0) as [m|];
       [destruct (negb (guild_me_hasPermission (member_guild m) _));
        [|destruct (fetchAuditLogs (member_guild m) _) as [entries|];
          [destruct (find _ entries) as [entry|];
           [destruct (String.eqb _ _)|]|]]|]);
      (destruct (negb (guild_me_hasPermission guild _));
       [|destruct (fetchAuditLogs guild _) as [entries'|];
         [destruct (find _ entries')|]]);
      cbn; repeat split; lia.
Qed.

End Correlation.

(** C4: a ban or unban platform event without log-view permission gives the
    bare kind; with it, the log is queried for the one matching action type
    and searched for an entry targeting the user: the event is the bare kind
    when there is none, and the audit variant carrying the first such entry
    otherwise. *)
Theorem banManagement_resolution (eventName : string) (guild : Guild)
        (user : User) (log : list AuditEntry) :
  eventName = "ban" ∨ eventName = "unban" →
  let type := if String.eqb eventName "ban"
              then "MEMBER_BAN_ADD" else "MEMBER_BAN_REMOVE" in
  (guild_me_hasPermission guild "VIEW_AUDIT_LOG" = false →
   resolveBanManagementEvent eventName guild user
   = Emit eventName [AGuild guild; AUser user])
  ∧ (guild_me_hasPermission guild "VIEW_AUDIT_LOG" = true →
     guild_audit_log guild = Some log →
     ((¬ ∃ e, In e log ∧ entry_action e = type
              ∧ entry_targetType e = "USER" ∧ entry_target_id e = user_id user) →
      resolveBanManagementEvent eventName guild user
      = Emit eventName [AGuild guild; AUser user])
     ∧ ((∃ e, In e log ∧ entry_action e = type
              ∧ entry_targetType e = "USER" ∧ entry_target_id e = user_id user) →
        ∃ entry,
          resolveBanManagementEvent eventName guild user
          = Emit (eventName +:+ "Audit") [AGuild guild; AUser user; AEntry entry]
          ∧ find (λ e, bool_decide (entry_action e = type) && targets (user_id user) e)
                 log = Some entry
          ∧ In entry log ∧ entry_action entry = type
          ∧ entry_targetType entry = "USER"
          ∧ entry_target_id entry = user_id user)).
Proof.
  intros Hname type.
  unfold resolveBanManagementEvent, fetchAuditLogs. split.
  - by intros ->.
  - intros -> ->. cbn [negb].
    assert (Htype : "MEMBER_BAN_" +:+
                    (if String.eqb eventName "ban" then "ADD" else "REMOVE") = type).
    { subst type. by destruct Hname as [-> | ->]. }
    rewrite Htype. clear Htype Hname. generalize type. clear type. intros type.
    induction log as [|a log IH].
    + split; [done|]. by intros (e & [] & _).
    + rewrite filter_cons. destruct (decide (entry_action a = type)) as [Ha|Ha].
      * cbn [find]. destruct (targets (user_id user) a) eqn:Hta.
        -- split.
           ++ intros Hnone. exfalso. apply Hnone. exists a.
              apply targets_true in Hta. split; [by left|]. tauto.
           ++ intros _. exists a. split; [done|]. cbn [find].
              rewrite bool_decide_eq_true_2 by done. rewrite ?Hta. cbn [andb].
              apply targets_true in Hta. split; [done|].
              split; [by left|]. tauto.
        -- destruct IH as [IHnone IHsome]. split.
           ++ intros Hnone. apply IHnone. intros (e & Hin & He).
              apply Hnone. exists e. split; [by right|done].
           ++ intros (e & [<-|Hin] & He).
              ** exfalso. destruct He as (_ & He).
                 apply (proj2 (targets_true _ _)) in He. congruence.
              ** destruct IHsome as (entry & H1 & H2 & H3 & H4); [by exists e|].
                 exists entry. split; [done|]. cbn [find].
                 rewrite bool_decide_eq_true_2 by done. rewrite ?Hta. cbn [andb].
                 split; [done|]. split; [by right|done].
      * destruct IH as [IHnone IHsome]. split.
        -- intros Hnone. apply IHnone. intros (e & Hin & He).
           apply Hnone. exists e. split; [by right|done].
        -- intros (e & [<-|Hin] & He).
           ++ exfalso. tauto.
           ++ destruct IHsome as (entry & H1 & H2 & H3 & H4); [by exists e|].
              exists entry. split; [done|]. cbn [find].
              rewrite bool_decide_eq_false_2 by done. cbn [andb].
              split; [done|]. split; [by right|done].
Qed.

(** ** Settings keys *)

(** C5: the four ban kinds share the settings key [ban], and collapsing the
    settings key of any event name (or of a message kind) again gives the
    same key. *)
Theorem settingsKey_collapse :
  settingsKey "ban" = "ban"
  ∧ settingsKey "banAudit" = "ban"
  ∧ settingsKey "unban" = "ban"
  ∧ settingsKey "unbanAudit" = "ban"
  ∧ Forall (λ eventName,
            settingsKey (settingsKey eventName) = settingsKey eventName)
           (table_keys guildResolver ++ ["msgdelete"; "msgimage"; "msgupdate"]).
Proof. vm_compute. repeat split; repeat constructor. Qed.

(** ** Rendering *)

(** C8 fails on the unban line: the line of an [unbanAudit] event names the
    executor but holds neither the entry's reason nor a no-reason marker;
    it is the same line whatever the reason is. *)
Theorem unbanAudit_line_without_reason :
  event_line escapeMarkdown "unbanAudit"
             [AGuild (Sample.guild_with true (Some [Sample.unban_entry]));
              AUser Sample.alice; AEntry Sample.unban_entry]
  = Some ":peace: [UNBAN] by Mod#1 | ID: 42 | Alice#0001"
  ∧ ∀ escape guild user action targetType target executor reason reason',
      event_line escape "unbanAudit"
                 [AGuild guild; AUser user;
                  AEntry {| entry_action := action; entry_targetType := targetType;
                            entry_target_id := target;
                            entry_executor_tag := executor;
                            entry_reason := reason |}]
      = event_line escape "unbanAudit"
                   [AGuild guild; AUser user;
                    AEntry {| entry_action := action; entry_targetType := targetType;
                              entry_target_id := target;
                              entry_executor_tag := executor;
                              entry_reason := reason' |}].
Proof. split; [vm_compute|]; reflexivity. Qed.

Lemma escapeMarkdown_no_raw_control text :
  has_raw_control (escapeMarkdown text) = false.
Proof.
  induction text as [|c text IH]; [reflexivity|].
  cbn [escapeMarkdown]. destruct (markdown_control c) eqn:Hc.
  - cbn [has_raw_control]. by rewrite Ascii.eqb_refl.
  - cbn [has_raw_control]. rewrite Hc, IH.
    destruct (Ascii.eqb c "\") eqn:Hb; [|reflexivity].
    apply Ascii.eqb_eq in Hb. subst c. discriminate.
Qed.

Lemma displayed_escapeMarkdown text : displayed (escapeMarkdown text) = text.
Proof.
  induction text as [|c text IH]; [reflexivity|].
  cbn [escapeMarkdown]. destruct (markdown_control c) eqn:Hc.
  - cbn [displayed]. rewrite Ascii.eqb_refl. by rewrite IH.
  - cbn [displayed]. rewrite IH.
    destruct (Ascii.eqb c "\") eqn:Hb; [|reflexivity].
    apply Ascii.eqb_eq in Hb. subst c. discriminate.
Qed.

(** Membership of a text among the texts of the arguments. *)
Ltac in_texts :=
  unfold display_name;
  repeat match goal with
         | |- context [match ?x with _ => _ end] => destruct x
         end;
  rewrite ?in_app_iff; simpl; tauto.

Create HintDb template.
#[local] Hint Constructors templated : template.
#[local] Hint Extern 1 (In _ _) => (simpl; tauto) : template.

(** A rendered line is made only of the renderers' fixed text and of
    escaped pieces of the text its arguments carry; an escaped piece holds
    no unprotected markdown control character and displays as the original
    text, so [*bold*] is written with both stars escaped. *)
Lemma renderers_escape_user_text (escape : string → string)
        (eventName : string) (args : list Arg) (line text : string) :
  event_line escape eventName args = Some line →
  templated escape (List.concat (map arg_texts args)) line
  ∧ has_raw_control (escapeMarkdown text) = false
  ∧ displayed (escapeMarkdown text) = text
  ∧ escapeMarkdown "*bold*" = "\*bold\*".
Proof.
  intros Hline. split;
    [|split; [apply escapeMarkdown_no_raw_control|];
      split; [apply displayed_escapeMarkdown|reflexivity]].
  revert Hline. unfold event_line, eventMessageRenderer, table_get.
  assert (Hreason : ∀ e texts,
             (∀ r, entry_reason e = Some r → In r texts) →
             templated escape texts (reason_clause escape e)).
  { intros e texts Hin. unfold reason_clause.
    destruct (entry_reason e) as [r|]; [|auto with template].
    destruct (String.length r =? 0)%nat; auto with template. }
  repeat (destruct (String.eqb eventName _); [
    repeat (let a := fresh "a" in
            destruct args as [|a args]; [discriminate|];
            try (destruct a; try discriminate));
    try discriminate;
    intros [= <-]; cbn [map List.concat arg_texts];
    repeat (apply templated_append);
    try (apply Hreason; intros r Hr; rewrite Hr; in_texts);
    try (apply templated_literal; simpl; tauto);
    try (apply templated_escaped; in_texts)
  |]).
  intros [=].
Qed.

(** ** Dispatch tables *)

(** C10: both tables have exactly the eight event names as keys, a listener
    is registered for exactly the renderer's keys, and every event the proxy
    emits finds its listener, its guild resolver and its renderer. *)
Theorem dispatch_tables_total (escape : string → string)
        (defaults : gmap string JsVal) (fetch : Member → option Member)
        (db : gmap string (gmap string JsVal)) (ev : DiscordEvent)
        (eventName : string) (args : list Arg) :
  table_keys (eventMessageRenderer escape)
  = ["join"; "left"; "rename"; "ban"; "banAudit"; "unban"; "unbanAudit"; "kick"]
  ∧ table_keys guildResolver = table_keys (eventMessageRenderer escape)
  ∧ handleLogEvents escape = table_keys (eventMessageRenderer escape)
  ∧ Forall (λ name, is_Some (table_get (eventMessageRenderer escape) name)
                    ∧ is_Some (table_get guildResolver name))
           ["join"; "left"; "rename"; "kick"; "ban"; "banAudit"; "unban";
            "unbanAudit"]
  ∧ (proxyDiscordEvents fetch ev = Emit eventName args →
     In eventName (handleLogEvents escape)
     ∧ emit escape defaults db eventName args
       = Some (handleEvent escape defaults db eventName args)
     ∧ is_Some (event_guild eventName args)
     ∧ is_Some (event_line escape eventName args)
     ∧ (resolveChannel defaults db eventName args).1 ≠ RFault).
Proof.
  split; [reflexivity|]. split; [reflexivity|]. split; [reflexivity|].
  split; [repeat constructor; eexists; reflexivity|].
  intros Hemit. apply proxyDiscordEvents_shape in Hemit.
  split; [destruct Hemit; simpl; tauto|].
  split; [by destruct Hemit|].
  destruct (shape_has_guild _ _ Hemit) as [guild Hguild].
  destruct (shape_has_line escape _ _ Hemit) as [line Hline].
  split; [eauto|]. split; [eauto|].
  revert Hguild. unfold event_guild, resolveChannel.
  destruct (table_get guildResolver eventName) as [resolver|]; [|done].
  intros ->. destruct (findOrCreate _ _ _) as [row db'].
  destruct (_ || _) eqn:Hor; [done|].
  apply orb_false_elim in Hor as [_ Hchannel].
  apply negb_false_iff in Hchannel.
  destruct (row !! _) as [v|]; [|done].
  destruct v as [|n|s]; [done| |]; cbn [toString];
    by destruct (guild_channels guild !! _).
Qed.

(** ** The definitions at work *)

Example kick_is_delivered :
  (handleEvent escapeMarkdown ∅ (Sample.db_to "100") "kick"
               [AMember Sample.kicked; AEntry Sample.kick_entry]).1
  = Sent Sample.general
         ":boot: [KICK] by Mod#1 with reason spam | ID: 42 | Alice#0001".
Proof. vm_compute. reflexivity. Qed.

Example left_flag_is_off :
  (handleEvent escapeMarkdown ∅ (Sample.db_to "100") "left"
               [AMember Sample.gone]).1 = Skipped.
Proof. vm_compute. reflexivity. Qed.

Example bare_ban_is_delivered :
  resolveBanManagementEvent "ban" (Sample.guild_with true (Some [])) Sample.alice
  = Emit "ban" [AGuild (Sample.guild_with true (Some [])); AUser Sample.alice]
  ∧ (handleEvent escapeMarkdown ∅ (Sample.db_to "100") "ban"
                 [AGuild (Sample.guild_with true (Some [])); AUser Sample.alice]).1
    = Sent Sample.general ":hammer: [BAN] | ID: 42 | Alice#0001".
Proof. split; vm_compute; reflexivity. Qed.

Example channel_is_gone :
  (handleEvent escapeMarkdown ∅ (Sample.db_to "300") "kick"
               [AMember Sample.kicked; AEntry Sample.kick_entry]).1 = Skipped.
Proof. vm_compute. reflexivity. Qed.

Example channel_is_not_text :
  (handleEvent escapeMarkdown ∅ (Sample.db_to "200") "kick"
               [AMember Sample.kicked; AEntry Sample.kick_entry]).1 = Skipped.
Proof. vm_compute. reflexivity. Qed.

Example unknown_guild_gets_a_row :
  handleEvent escapeMarkdown ∅ ∅ "join" [AMember Sample.gone]
  = (Skipped, <["7" := <["id" := JStr "7"]> ∅]> ∅).
Proof. vm_compute. reflexivity. Qed.

Example collapse_is_not_idempotent_off_the_event_names :
  settingsKey "unbanAuditAudit" = "unbanAudit"
  ∧ settingsKey (settingsKey "unbanAuditAudit") = "ban".
Proof. split; reflexivity. Qed.

(** ** Instances of the theorems above *)

Lemma handleEvent_delivers_witness :
  proxyDiscordEvents Sample.fetch_same (guildMemberRemove Sample.kicked)
  = Emit "kick" [AMember Sample.kicked; AEntry Sample.kick_entry]
  ∧ (handleEvent escapeMarkdown ∅ (Sample.db_to "100") "kick"
                 [AMember Sample.kicked; AEntry Sample.kick_entry]).1 ≠ Fault.
Proof.
  split; [reflexivity|].
  destruct (handleEvent_delivers_iff_conditions
              escapeMarkdown ∅ Sample.fetch_same (Sample.db_to "100")
              (guildMemberRemove Sample.kicked) "kick"
              [AMember Sample.kicked; AEntry Sample.kick_entry] eq_refl)
    as (guild & line & _ & _ & _ & _ & Hfault).
  exact Hfault.
Defined.

(** C2 fails when a newer ban of the member precedes the kick in the log,
    and when the bot may not view the log: the kick entry of the member is
    there, and the event is not [kick]. *)
Lemma memberRemove_kick_counterexample :
  guild_audit_log
    (Sample.guild_with true (Some [Sample.ban_entry; Sample.kick_entry]))
  = Some [Sample.ban_entry; Sample.kick_entry]
  ∧ entry_action Sample.kick_entry = "MEMBER_KICK"
  ∧ entry_target_id Sample.kick_entry
    = member_id (Sample.member_of
                   false
                   (Sample.guild_with true
                      (Some [Sample.ban_entry; Sample.kick_entry])))
  ∧ resolveMemberRemove
      Sample.fetch_same
      (Sample.member_of
         false
         (Sample.guild_with true (Some [Sample.ban_entry; Sample.kick_entry])))
    = NoEmit
  ∧ resolveMemberRemove
      Sample.fetch_same
      (Sample.member_of false (Sample.guild_with false (Some [Sample.kick_entry])))
    = Emit "left"
           [AMember (Sample.member_of
                       false
                       (Sample.guild_with false (Some [Sample.kick_entry])))].
Proof. repeat split; reflexivity. Qed.

(** C3 fails when the log query fails: with the permission granted and the
    query rejected, neither correlator emits the bare kind. *)
Lemma correlation_failure_counterexample :
  guild_me_hasPermission (member_guild Sample.unqueried) "VIEW_AUDIT_LOG" = true
  ∧ fetchAuditLogs (member_guild Sample.unqueried) None = None
  ∧ resolveMemberRemove Sample.fetch_same Sample.unqueried = Reject
  ∧ resolveMemberRemove Sample.fetch_same Sample.unqueried
    ≠ Emit "left" [AMember Sample.unqueried]
  ∧ resolveBanManagementEvent "ban" (Sample.guild_with true None) Sample.alice
    ≠ Emit "ban" [AGuild (Sample.guild_with true None); AUser Sample.alice].
Proof. repeat split; try reflexivity; vm_compute; discriminate. Qed.

Lemma correlation_failures_witness :
  resolveMemberRemove Sample.fetch_fails Sample.unseen = Reject
  ∧ resolveMemberRemove Sample.fetch_same Sample.unqueried = Reject
  ∧ resolveBanManagementEvent "unban" (Sample.guild_with true None) Sample.alice
    = Reject
  ∧ resolveBanManagementEvent "unban" (Sample.guild_with false None) Sample.alice
    = Emit "unban" [AGuild (Sample.guild_with false None); AUser Sample.alice]
  ∧ resolveMemberRemove Sample.fetch_same
                        (Sample.member_of false (Sample.guild_with false None))
    = Emit "left" [AMember (Sample.member_of false (Sample.guild_with false None))].
Proof.
  destruct (correlation_failures Sample.fetch_fails Sample.unseen Sample.unseen
              "unban" (Sample.guild_with true None) Sample.alice)
    as (_ & _ & Hfetch & _ & Hban & _).
  destruct (correlation_failures Sample.fetch_same Sample.unqueried
              Sample.unqueried "unban" (Sample.guild_with false None)
              Sample.alice)
    as (_ & Hbare & _ & Hquery & _).
  destruct (correlation_failures
              Sample.fetch_same
              (Sample.member_of false (Sample.guild_with false None))
              (Sample.member_of false (Sample.guild_with false None))
              "unban" (Sample.guild_with false None) Sample.alice)
    as (Hleft & _).
  split; [exact (proj1 (Hfetch eq_refl))|].
  split; [exact (Hquery eq_refl eq_refl eq_refl)|].
  split; [exact (Hban eq_refl eq_refl)|].
  split; [exact (proj1 (Hbare eq_refl))|].
  exact (proj1 (Hleft eq_refl eq_refl)).
Defined.

Lemma banManagement_witness :
  ∃ entry,
    resolveBanManagementEvent
      "unban" (Sample.guild_with true (Some [Sample.ban_entry; Sample.unban_entry]))
      Sample.alice
    = Emit "unbanAudit"
           [AGuild (Sample.guild_with true
                      (Some [Sample.ban_entry; Sample.unban_entry]));
            AUser Sample.alice; AEntry entry]
    ∧ entry_action entry = "MEMBER_BAN_REMOVE".
Proof.
  destruct (banManagement_resolution
              "unban"
              (Sample.guild_with true (Some [Sample.ban_entry; Sample.unban_entry]))
              Sample.alice [Sample.ban_entry; Sample.unban_entry]
              (or_intror eq_refl)) as [_ Hlog].
  destruct (Hlog eq_refl eq_refl) as [_ Hfound].
  destruct Hfound as (entry & Hemit & _ & _ & Haction & _).
  - exists Sample.unban_entry. simpl. tauto.
  - exists entry. split; [exact Hemit | exact Haction].
Defined.

(** C6 fails for a partial member whose completion fails: the bot may not
    view the log, and yet no [left] event is emitted. *)
Lemma memberRemove_left_counterexample :
  guild_me_hasPermission (member_guild Sample.unseen) "VIEW_AUDIT_LOG" = false
  ∧ resolveMemberRemove Sample.fetch_fails Sample.unseen = Reject
  ∧ ¬ ∃ args, resolveMemberRemove Sample.fetch_fails Sample.unseen
              = Emit "left" args.
Proof.
  split; [reflexivity|]. split; [reflexivity|].
  intros [args Hargs]. vm_compute in Hargs. discriminate.
Qed.

Lemma memberRemove_left_witness :
  resolveMemberRemove Sample.fetch_same Sample.gone
  = Emit "left" [AMember Sample.gone].
Proof.
  apply (memberRemove_left_iff Sample.fetch_same Sample.gone Sample.gone eq_refl).
  - intros _. eexists. reflexivity.
  - right. intros entries [= <-] (e & [] & _).
Defined.

Lemma memberRemove_ban_entry_witness :
  resolveMemberRemove Sample.fetch_same Sample.banned = NoEmit.
Proof.
  apply (memberRemove_ban_entry_silent
           Sample.fetch_same Sample.banned Sample.banned
           [Sample.ban_entry] Sample.ban_entry
           (guildMemberAdd Sample.banned) "join" [AMember Sample.banned]
           eq_refl eq_refl eq_refl eq_refl (or_introl eq_refl)).
Defined.

Lemma dispatch_tables_witness :
  emit escapeMarkdown ∅ (Sample.db_to "100") "kick"
       [AMember Sample.kicked; AEntry Sample.kick_entry]
  = Some (handleEvent escapeMarkdown ∅ (Sample.db_to "100") "kick"
                      [AMember Sample.kicked; AEntry Sample.kick_entry]).
Proof.
  destruct (dispatch_tables_total
              escapeMarkdown ∅ Sample.fetch_same (Sample.db_to "100")
              (guildMemberRemove Sample.kicked) "kick"
              [AMember Sample.kicked; AEntry Sample.kick_entry])
    as (_ & _ & _ & _ & Hemit).
  destruct (Hemit eq_refl) as (_ & Hlistener & _).
  exact Hlistener.
Defined.

(** * Further properties of the logs processor *)

Section Handler.

Variable escape : string → string.
Variable defaults : gmap string JsVal.

Lemma findOrCreate_again db id :
  findOrCreate defaults (findOrCreate defaults db id).2 id
  = ((findOrCreate defaults db id).1, (findOrCreate defaults db id).2).
Proof.
  unfold findOrCreate. destruct (db !! id) as [row|] eqn:Hrow; simpl.
  - by rewrite Hrow.
  - by rewrite lookup_insert_eq.
Qed.

(** The handler on any event name and arguments. *)
Lemma handleEvent_deliver db eventName args :
  handleEvent escape defaults db eventName args =
    match event_guild eventName args with
    | None => (Fault, db)
    | Some guild =>
        (deliver escape guild (findOrCreate defaults db (guild_id guild)).1
                 eventName args,
         (findOrCreate defaults db (guild_id guild)).2)
    end.
Proof.
  unfold handleEvent, resolveChannel, event_guild, deliver.
  destruct (table_get guildResolver eventName) as [resolver|]; [|done].
  destruct (resolver args) as [guild|]; [|done].
  destruct (findOrCreate defaults db (guild_id guild)) as [row db'].
  cbn [fst snd].
  destruct (negb (truthy (row !! "logs_enabled"))); cbn [orb]; [done|].
  destruct (negb (truthy (row !! ("logs_" +:+ settingsKey eventName +:+ "_event"))));
    cbn [orb]; [done|].
  destruct (row !! ("logs_" +:+ channelType (settingsKey eventName) +:+ "_channel"))
    as [v|]; [|done].
  destruct v as [|n|s]; [done| |]; cbn [truthy toString mbind option_bind].
  - destruct (negb (n =? 0)%Z); cbn [negb]; [|done].
    destruct (guild_channels guild !! pretty n) as [channel|]; [|done].
    destruct (table_get (eventMessageRenderer escape) eventName) as [renderer|].
    + destruct (renderer args); [|done]. by destruct (String.eqb _ _).
    + by destruct (String.eqb _ _).
  - destruct (negb (String.eqb s "")); cbn [negb]; [|done].
    destruct (guild_channels guild !! s) as [channel|]; [|done].
    destruct (table_get (eventMessageRenderer escape) eventName) as [renderer|].
    + destruct (renderer args); [|done]. by destruct (String.eqb _ _).
    + by destruct (String.eqb _ _).
Qed.

(** X1: whatever the event name and the arguments, also ones the proxy
    never emits, a message is only ever sent for an event whose guild the
    resolver table finds, with logging enabled in that guild's row, into a
    text channel of that guild's channel cache, and it is the line the
    renderer table gives. *)
Theorem handleEvent_sends_only_into_guild
        (db : gmap string (gmap string JsVal)) (eventName : string)
        (args : list Arg) (channel : Channel) (logMessage : string) :
  (handleEvent escape defaults db eventName args).1 = Sent channel logMessage →
  ∃ guild id,
    event_guild eventName args = Some guild
    ∧ truthy ((findOrCreate defaults db (guild_id guild)).1 !! "logs_enabled") = true
    ∧ guild_channels guild !! id = Some channel
    ∧ channel_type channel = "text"
    ∧ event_line escape eventName args = Some logMessage.
Proof.
  rewrite handleEvent_deliver.
  destruct (event_guild eventName args) as [guild|]; [|done].
  cbn [fst]. unfold deliver, event_line.
  set (row := (findOrCreate defaults db (guild_id guild)).1).
  destruct (truthy (row !! "logs_enabled")) eqn:Henabled; cbn [negb orb]; [|done].
  destruct (_ || _); [done|].
  destruct (row !! ("logs_" +:+ channelType (settingsKey eventName) +:+ "_channel"))
    as [v|]; cbn [mbind option_bind]; [|done].
  destruct (toString v) as [id|]; cbn [mbind option_bind]; [|done].
  destruct (guild_channels guild !! id) as [channel'|] eqn:Hchannel; [|done].
  destruct (table_get (eventMessageRenderer escape) eventName) as [renderer|].
  - destruct (renderer args) as [line|]; [|done].
    destruct (String.eqb (channel_type channel') "text") eqn:Htext; [|done].
    intros [= <- <-]. apply String.eqb_eq in Htext. exists guild, id. done.
  - by destruct (String.eqb _ _).
Qed.

(** X2: handling an event changes the table of guild rows at most by
    creating the row of the event's guild: the table is either unchanged
    or the old table with that one row, built from the defaults, added
    under a key that had no row; rows already there are kept as they are,
    and handling the same event again on the resulting table gives the same
    outcome and leaves that table unchanged. *)
Theorem handleEvent_table_stable
        (db : gmap string (gmap string JsVal)) (eventName : string)
        (args : list Arg) :
  ((handleEvent escape defaults db eventName args).2 = db
   ∨ ∃ guild,
       event_guild eventName args = Some guild
       ∧ db !! guild_id guild = None
       ∧ (handleEvent escape defaults db eventName args).2
         = <[guild_id guild := <["id" := JStr (guild_id guild)]> defaults]> db)
  ∧ (∀ id row, db !! id = Some row →
               (handleEvent escape defaults db eventName args).2 !! id = Some row)
  ∧ handleEvent escape defaults
                (handleEvent escape defaults db eventName args).2 eventName args
    = handleEvent escape defaults db eventName args.
Proof.
  pose proof (handleEvent_deliver db eventName args) as Hfirst.
  destruct (event_guild eventName args) as [guild|] eqn:Hguild;
    rewrite Hfirst; cbn [fst snd].
  - split; [|split].
    + unfold findOrCreate.
      destruct (db !! guild_id guild) eqn:Hrow'; [by left|].
      right. by exists guild.
    + intros id row Hrow. unfold findOrCreate.
      destruct (db !! guild_id guild) eqn:Hrow'; [done|].
      cbn [snd]. rewrite lookup_insert_ne; [done|]. congruence.
    + rewrite handleEvent_deliver, Hguild. by rewrite findOrCreate_again.
  - split; [by left|]. split; [done|]. by rewrite handleEvent_deliver, Hguild.
Qed.

End Handler.

Section Correlated.

Variable fetch : Member → option Member.

Lemma find_first_match {A} (p : A → bool) (pre : list A) (x : A) (post : list A) :
  Forall (λ y, p y = false) pre → p x = true →
  find p (pre ++ x :: post) = Some x.
Proof.
  induction 1 as [|y pre Hy _ IH]; intros Hx; simpl.
  - by rewrite Hx.
  - rewrite Hy. by apply IH.
Qed.

Lemma find_in_filtered (type id : string) (log : list AuditEntry) (entry : AuditEntry) :
  find (removal_entry id) log = Some entry →
  In type ["MEMBER_KICK"; "MEMBER_BAN_ADD"; "MEMBER_BAN_REMOVE"] →
  entry_action entry = type →
  find (targets id) (filter (λ e, entry_action e = type) log) = Some entry.
Proof.
  intros Hfind Htype Haction. induction log as [|a log IH]; [done|].
  cbn [find] in Hfind. rewrite filter_cons.
  destruct (removal_entry id a) eqn:Ha.
  - injection Hfind as ->. rewrite decide_True by done. cbn [find].
    apply removal_entry_true in Ha as (_ & Ha).
    by rewrite (proj2 (targets_true _ _) Ha).
  - destruct (decide (entry_action a = type)) as [Hat|Hat]; [|by apply IH].
    cbn [find]. destruct (targets id a) eqn:Hta; [|by apply IH].
    exfalso. apply targets_true in Hta.
    assert (removal_entry id a = true); [|congruence].
    apply removal_entry_true. by rewrite Hat.
Qed.

(** X3: for a removed member the newest log entry that targets the member
    with a kick, ban or unban action decides alone: a kick gives [kick]
    with that entry, a ban or unban gives no event, whatever older entries
    follow it in the log. *)
Theorem memberRemove_newest_match_decides
        (member0 member : Member) (pre post : list AuditEntry) (entry : AuditEntry) :
  completed fetch member0 = Some member →
  guild_me_hasPermission (member_guild member) "VIEW_AUDIT_LOG" = true →
  guild_audit_log (member_guild member) = Some (pre ++ entry :: post)%list →
  Forall (λ e, removal_entry (member_id member) e = false) pre →
  removal_entry (member_id member) entry = true →
  resolveMemberRemove fetch member0
  = if String.eqb (entry_action entry) "MEMBER_KICK"
    then Emit "kick" [AMember member; AEntry entry]
    else NoEmit.
Proof.
  intros Hmember Hperm Hlog Hpre Hentry.
  unfold resolveMemberRemove, fetchAuditLogs.
  rewrite Hmember, Hperm, Hlog. cbn [negb].
  by rewrite (find_first_match _ _ _ _ Hpre Hentry).
Qed.

(** X4: a ban is reported once.  When the newest entry about a removed
    member is a ban of that member, the member-remove path is silent and
    the ban path, for the same guild and user, emits [banAudit] carrying
    that very entry. *)
Theorem ban_reported_once
        (member0 member : Member) (user : User) (log : list AuditEntry)
        (entry : AuditEntry) :
  completed fetch member0 = Some member →
  member_id member = user_id user →
  guild_me_hasPermission (member_guild member) "VIEW_AUDIT_LOG" = true →
  guild_audit_log (member_guild member) = Some log →
  find (removal_entry (member_id member)) log = Some entry →
  entry_action entry = "MEMBER_BAN_ADD" →
  resolveMemberRemove fetch member0 = NoEmit
  ∧ resolveBanManagementEvent "ban" (member_guild member) user
    = Emit "banAudit" [AGuild (member_guild member); AUser user; AEntry entry].
Proof.
  intros Hmember Hid Hperm Hlog Hfind Haction. split.
  - unfold resolveMemberRemove, fetchAuditLogs.
    by rewrite Hmember, Hperm, Hlog, Hfind, Haction.
  - unfold resolveBanManagementEvent, fetchAuditLogs.
    rewrite Hperm, Hlog, <- Hid. cbn [negb String.eqb].
    change ("MEMBER_BAN_" +:+ _) with "MEMBER_BAN_ADD".
    rewrite (find_in_filtered "MEMBER_BAN_ADD" _ _ _ Hfind); [done| |done].
    simpl. tauto.
Qed.

(** X5: an entry carried by an emitted event is always about the subject of
    the event: it targets the kicked member with a kick action, or the
    banned (unbanned) user with a ban (unban) action. *)
Theorem emitted_entry_is_about_subject
        (ev : DiscordEvent) (eventName : string) (args : list Arg)
        (entry : AuditEntry) :
  proxyDiscordEvents fetch ev = Emit eventName args →
  In (AEntry entry) args →
  entry_targetType entry = "USER"
  ∧ ((∃ member, args = [AMember member; AEntry entry]
                ∧ eventName = "kick"
                ∧ entry_action entry = "MEMBER_KICK"
                ∧ entry_target_id entry = member_id member)
     ∨ (∃ guild user, args = [AGuild guild; AUser user; AEntry entry]
                      ∧ entry_target_id entry = user_id user
                      ∧ ((eventName = "banAudit"
                          ∧ entry_action entry = "MEMBER_BAN_ADD")
                         ∨ (eventName = "unbanAudit"
                            ∧ entry_action entry = "MEMBER_BAN_REMOVE")))).
Proof.
  assert (Hban : ∀ name guild user,
             name = "ban" ∨ name = "unban" →
             resolveBanManagementEvent name guild user = Emit eventName args →
             In (AEntry entry) args →
             entry_targetType entry = "USER"
             ∧ args = [AGuild guild; AUser user; AEntry entry]
             ∧ entry_target_id entry = user_id user
             ∧ eventName = name +:+ "Audit"
             ∧ entry_action entry
               = "MEMBER_BAN_" +:+ (if String.eqb name "ban" then "ADD" else "REMOVE")).
  { intros name guild user Hname. unfold resolveBanManagementEvent, fetchAuditLogs.
    destruct (negb _).
    { intros [= <- <-] [|[|[]]]; done. }
    destruct (guild_audit_log guild) as [log|]; [|done].
    destruct (find _ _) as [e|] eqn:Hfind.
    - intros [= <- <-] [|[|[[= ->]|[]]]]; [done|done|].
      apply find_some in Hfind as [Hin Htargets].
      apply list_elem_of_In, list_elem_of_filter in Hin as [Haction _].
      apply targets_true in Htargets as [? ?]. done.
    - intros [= <- <-] [|[|[]]]; done. }
  destruct ev as [m|m|p c|g u|g u]; simpl.
  - intros [= <- <-] [|[]]; done.
  - unfold resolveMemberRemove.
    destruct (completed fetch m) as [member|]; [|done].
    destruct (negb _).
    { intros [= <- <-] [|[]]; done. }
    destruct (fetchAuditLogs _ _) as [entries|]; [|done].
    destruct (find _ _) as [e|] eqn:Hfind.
    + destruct (String.eqb (entry_action e) "MEMBER_KICK") eqn:Hkick; [|done].
      intros [= <- <-] [|[[= ->]|[]]]; [done|].
      apply find_some in Hfind as [_ Hmatch].
      apply removal_entry_true in Hmatch as (_ & ? & ?).
      apply String.eqb_eq in Hkick.
      split; [done|]. left. by exists member.
    + intros [= <- <-] [|[]]; done.
  - unfold resolveMemberUpdate. case_bool_decide; [done|].
    intros [= <- <-] [|[|[]]]; done.
  - intros Hemit Hin.
    destruct (Hban "ban" g u (or_introl eq_refl) Hemit Hin) as (? & ? & ? & ? & ?).
    split; [done|]. right. exists g, u. split; [done|]. split; [done|]. by left.
  - intros Hemit Hin.
    destruct (Hban "unban" g u (or_intror eq_refl) Hemit Hin) as (? & ? & ? & ? & ?).
    split; [done|]. right. exists g, u. split; [done|]. split; [done|]. by right.
Qed.

(** X6: a member update is reported exactly when the nickname changed, not
    when only other data of the member did; a reported rename shows the
    same name on both sides only when a nickname equal to the username was
    set or removed. *)
Theorem memberUpdate_rename_only (prev curr : Member) :
  (member_nickname prev = member_nickname curr →
   proxyDiscordEvents fetch (guildMemberUpdate prev curr) = NoEmit)
  ∧ (member_nickname prev ≠ member_nickname curr →
     proxyDiscordEvents fetch (guildMemberUpdate prev curr)
     = Emit "rename" [AMember prev; AMember curr]
     ∧ (display_name prev = display_name curr →
        (member_nickname prev = None
         ∧ member_nickname curr = Some (user_username (member_user prev)))
        ∨ (member_nickname curr = None
           ∧ member_nickname prev = Some (user_username (member_user curr))))).
Proof.
  cbn [proxyDiscordEvents]. unfold resolveMemberUpdate, display_name. split.
  - intros Hsame. by rewrite bool_decide_eq_true_2.
  - intros Hdiff. rewrite bool_decide_eq_false_2 by done. split; [done|].
    destruct (member_nickname prev) as [a|], (member_nickname curr) as [b|];
      intros Heq; subst; auto; congruence.
Qed.

End Correlated.

Section Kicks.

Variable fetch : Member → option Member.
Variable escape : string → string.

(** C2, as the code has it: for a removed member whose state is complete or
    was completed, with the permission to view the log and a log query
    that succeeds, when the newest entry that targets the member with a
    kick, ban or unban action is a kick, the event is [kick] with the
    member and that entry, and the kick line holds the executor's tag, as
    the renderer writes it (through [escape]), followed by the entry's
    reason when it has a non-empty one and by the no-reason marker
    otherwise. *)
Theorem memberRemove_kick_newest
        (member0 member : Member) (pre post : list AuditEntry)
        (entry : AuditEntry) :
  completed fetch member0 = Some member →
  guild_me_hasPermission (member_guild member) "VIEW_AUDIT_LOG" = true →
  guild_audit_log (member_guild member) = Some (pre ++ entry :: post)%list →
  (∀ e, In e pre →
        ¬ (In (entry_action e)
              ["MEMBER_KICK"; "MEMBER_BAN_ADD"; "MEMBER_BAN_REMOVE"]
           ∧ entry_targetType e = "USER"
           ∧ entry_target_id e = member_id member)) →
  entry_action entry = "MEMBER_KICK" →
  entry_targetType entry = "USER" →
  entry_target_id entry = member_id member →
  resolveMemberRemove fetch member0 = Emit "kick" [AMember member; AEntry entry]
  ∧ ∃ line,
      event_line escape "kick" [AMember member; AEntry entry] = Some line
      ∧ JsString.contains (" by " +:+ escape (entry_executor_tag entry)) line
      ∧ match entry_reason entry with
        | Some reason =>
            if String.eqb reason ""
            then JsString.contains " with no reason" line
            else JsString.contains (" with reason " +:+ escape reason) line
        | None => JsString.contains " with no reason" line
        end.
Proof.
  intros Hmember Hperm Hlog Hpre Haction Htype Htarget.
  assert (Hfind : find (removal_entry (member_id member))
                       (pre ++ entry :: post)%list = Some entry).
  { apply find_first_match.
    - apply Forall_forall. intros e He.
      destruct (removal_entry (member_id member) e) eqn:Hmatch; [|done].
      exfalso. apply (Hpre e); [by apply list_elem_of_In|].
      by apply removal_entry_true.
    - apply removal_entry_true. rewrite Haction. simpl. tauto. }
  destruct (memberRemove_kick_entry fetch escape member0 member
                                    (pre ++ entry :: post)%list entry)
    as (Hemit & _ & Hline); try done.
  unfold fetchAuditLogs. by rewrite Hlog.
Qed.

End Kicks.

Lemma memberRemove_kick_newest_witness :
  resolveMemberRemove Sample.fetch_same Sample.kicked
  = Emit "kick" [AMember Sample.kicked; AEntry Sample.kick_entry].
Proof.
  apply (memberRemove_kick_newest
           Sample.fetch_same escapeMarkdown Sample.kicked Sample.kicked
           [] [] Sample.kick_entry eq_refl eq_refl eq_refl).
  - intros e [].
  - reflexivity.
  - reflexivity.
  - reflexivity.
Defined.

Section Lines.

Variable escape : string → string.


Lemma contains_refl (s : string) : JsString.contains s s.
Proof. exists "", "". by rewrite append_empty_r. Qed.

Lemma contains_append_l (sub a b : string) :
  JsString.contains sub a → JsString.contains sub (a +:+ b).
Proof.
  intros (pre & post & ->). exists pre, (post +:+ b).
  by rewrite !append_assoc.
Qed.

Lemma contains_append_r (sub a b : string) :
  JsString.contains sub b → JsString.contains sub (a +:+ b).
Proof.
  intros (pre & post & ->). exists (a +:+ pre), post.
  by rewrite !append_assoc.
Qed.

Create HintDb contains.
#[local] Hint Resolve contains_refl contains_append_l contains_append_r : contains.

(** X8: every line of an emitted event names its subject: it holds the
    escaped ["ID: <id>"] of the member (of the previous state, for a
    rename) or of the user, and, except for a rename, the escaped tag. *)
Theorem line_names_subject
        (fetch : Member → option Member) (ev : DiscordEvent)
        (eventName : string) (args : list Arg) :
  proxyDiscordEvents fetch ev = Emit eventName args →
  ∃ line,
    event_line escape eventName args = Some line
    ∧ match args with
      | AMember member :: _ =>
          JsString.contains (escape ("ID: " +:+ member_id member)) line
          ∧ (eventName ≠ "rename" →
             JsString.contains (escape (user_tag (member_user member))) line)
      | _ :: AUser user :: _ =>
          JsString.contains (escape ("ID: " +:+ user_id user)) line
          ∧ JsString.contains (escape (user_tag user)) line
      | _ => False
      end.
Proof.
  intros Hemit. apply proxyDiscordEvents_shape in Hemit.
  destruct Hemit; (eexists; split; [reflexivity|]); split;
    try done; try (intros _); auto 12 with contains.
Qed.

End Lines.

(** ** Escaping, as the reader of a line sees it *)

Lemma displayed_literal lit rest :
  no_backslash lit = true → displayed (lit +:+ rest) = lit +:+ displayed rest.
Proof.
  induction lit as [|c lit IH]; [done|]. cbn [no_backslash].
  intros [Hc Hlit]%andb_true_iff. apply negb_true_iff in Hc.
  change (displayed (String c (lit +:+ rest)) = String c (lit +:+ displayed rest)).
  cbn [displayed]. rewrite Hc. by rewrite IH.
Qed.

Lemma displayed_escaped text rest :
  displayed (escapeMarkdown text +:+ rest) = text +:+ displayed rest.
Proof.
  induction text as [|c text IH]; [done|]. cbn [escapeMarkdown].
  destruct (markdown_control c) eqn:Hc.
  - change (displayed (String "\" (String c (escapeMarkdown text +:+ rest)))
            = String c (text +:+ displayed rest)).
    cbn [displayed]. rewrite Ascii.eqb_refl. by rewrite IH.
  - change (displayed (String c (escapeMarkdown text +:+ rest))
            = String c (text +:+ displayed rest)).
    cbn [displayed]. rewrite IH.
    destruct (Ascii.eqb c "\") eqn:Hb; [|done].
    apply Ascii.eqb_eq in Hb. subst c. discriminate.
Qed.

Lemma renders_displayed line raw :
  renders line raw → ∀ rest, displayed (line +:+ rest) = raw +:+ displayed rest.
Proof.
  induction 1 as [lit Hlit|text|a a' b b' _ IHa _ IHb]; intros rest.
  - by apply displayed_literal.
  - apply displayed_escaped.
  - by rewrite !append_assoc, IHa, IHb.
Qed.

Lemma escapeMarkdown_opens_no_markup text :
  opens_markup (escapeMarkdown text) = false.
Proof.
  induction text as [|c text IH]; [done|]. cbn [escapeMarkdown].
  destruct (markdown_control c) eqn:Hc.
  - cbn [opens_markup]. by rewrite Ascii.eqb_refl.
  - cbn [opens_markup].
    destruct (Ascii.eqb c "\") eqn:H1; [apply Ascii.eqb_eq in H1; by subst c|].
    destruct (Ascii.eqb c "*") eqn:H2; [apply Ascii.eqb_eq in H2; by subst c|].
    destruct (Ascii.eqb c "_") eqn:H3; [apply Ascii.eqb_eq in H3; by subst c|].
    destruct (Ascii.eqb c "`") eqn:H4; [apply Ascii.eqb_eq in H4; by subst c|].
    destruct (Ascii.eqb c "~") eqn:H5; [apply Ascii.eqb_eq in H5; by subst c|].
    destruct (Ascii.eqb c "|") eqn:H6; [apply Ascii.eqb_eq in H6; by subst c|].
    cbn [existsb orb andb]. rewrite ?H1, ?H2, ?H3, ?H4, ?H5, ?H6.
    cbn [orb andb]. rewrite ?IH. by destruct (escapeMarkdown text).
Qed.

Lemma event_line_renders eventName args line raw :
  event_line escapeMarkdown eventName args = Some line →
  event_line (λ s, s) eventName args = Some raw →
  renders line raw.
Proof.
  unfold event_line, eventMessageRenderer, table_get.
  assert (Hreason : ∀ e,
             renders (reason_clause escapeMarkdown e) (reason_clause (λ s, s) e)).
  { intros e. unfold reason_clause.
    destruct (entry_reason e) as [r|]; [|by apply renders_literal].
    destruct (String.length r =? 0)%nat; [by apply renders_literal|].
    apply renders_append; [by apply renders_literal|apply renders_escaped]. }
  repeat (destruct (String.eqb eventName _); [
    repeat (let a := fresh "a" in
            destruct args as [|a args]; [discriminate|];
            try (destruct a; try discriminate));
    try discriminate;
    intros <-%(inj Some) <-%(inj Some);
    repeat (apply renders_append);
    try apply Hreason;
    try (by apply renders_literal);
    apply renders_escaped
  |]).
  intros [=].
Qed.

Lemma shown_texts_in_line (escape : string → string) eventName args :
  emitted_shape eventName args →
  ∃ line, event_line escape eventName args = Some line
          ∧ ∀ text, In text (shown_texts eventName args) →
                    JsString.contains (escape text) line.
Proof.
  destruct 1 as [m|m|m e|p c|g u|g u e|g u|g u e];
    (eexists; split; [reflexivity|]); intros text;
    cbn [shown_texts String.eqb Ascii.eqb Bool.eqb app];
    try (unfold reason_clause, reason_texts;
         destruct (entry_reason e) as [[|c' r]|]);
    cbn [In app String.length Nat.eqb];
    intros Hin;
    repeat (destruct Hin as [<-|Hin]);
    try done;
    auto 12 using contains_refl, contains_append_l, contains_append_r.
Qed.

(** C9: every renderer passes the user-controlled text through the escaping
    before it goes into the line.  A rendered line is made only of the
    renderers' fixed text and of escaped pieces of the text its arguments
    carry, and the line of an emitted event holds the escaped form of every
    text it shows (identifier, tag, old and new name, executor, reason).
    With [escapeMarkdown] an escaped piece opens no markup and has no
    unprotected control character, and the line displays as the line
    written with the texts as they are, so every text it shows, a name such
    as [*bold*] too, appears literally in what is displayed. *)
Theorem renderers_escape_shown_text
        (escape : string → string) (fetch : Member → option Member)
        (ev : DiscordEvent) (eventName : string) (args : list Arg)
        (text : string) :
  proxyDiscordEvents fetch ev = Emit eventName args →
  (∃ line,
      event_line escape eventName args = Some line
      ∧ templated escape (List.concat (map arg_texts args)) line
      ∧ ∀ shown, In shown (shown_texts eventName args) →
                 JsString.contains (escape shown) line)
  ∧ (∃ line raw,
        event_line escapeMarkdown eventName args = Some line
        ∧ event_line (λ s, s) eventName args = Some raw
        ∧ displayed line = raw
        ∧ ∀ shown, In shown (shown_texts eventName args) →
                   JsString.contains (escapeMarkdown shown) line
                   ∧ JsString.contains shown (displayed line))
  ∧ opens_markup (escapeMarkdown text) = false
  ∧ has_raw_control (escapeMarkdown text) = false
  ∧ displayed (escapeMarkdown text) = text
  ∧ escapeMarkdown "*bold*" = "\*bold\*"
  ∧ displayed (escapeMarkdown "*bold*") = "*bold*".
Proof.
  intros Hemit. apply proxyDiscordEvents_shape in Hemit.
  split; [|split].
  - destruct (shown_texts_in_line escape _ _ Hemit) as (line & Hline & Hshown).
    exists line. split; [done|]. split; [|done].
    by apply (renderers_escape_user_text escape eventName args line text).
  - destruct (shown_texts_in_line escapeMarkdown _ _ Hemit)
      as (line & Hline & Hshown).
    destruct (shown_texts_in_line (λ s, s) _ _ Hemit) as (raw & Hraw & Hliteral).
    assert (Hdisplayed : displayed line = raw).
    { pose proof (renders_displayed _ _ (event_line_renders _ _ _ _ Hline Hraw) "")
        as H.
      by rewrite !append_empty_r in H. }
    exists line, raw. repeat split; try done.
    + by apply Hshown.
    + rewrite Hdisplayed. by apply Hliteral.
  - split; [apply escapeMarkdown_opens_no_markup|].
    split; [apply escapeMarkdown_no_raw_control|].
    split; [apply displayed_escapeMarkdown|]. split; reflexivity.
Qed.

Lemma renderers_escape_shown_witness :
  ∃ line,
    event_line escapeMarkdown "rename"
               [AMember Sample.kicked; AMember SampleCommand.renamed] = Some line
    ∧ JsString.contains "Alice" (displayed line).
Proof.
  destruct (renderers_escape_shown_text
              escapeMarkdown Sample.fetch_same
              (guildMemberUpdate Sample.kicked SampleCommand.renamed)
              "rename" [AMember Sample.kicked; AMember SampleCommand.renamed]
              "*bold*" eq_refl)
    as (_ & (line & raw & Hline & _ & _ & Hshown) & _).
  exists line. split; [exact Hline|].
  apply (Hshown "Alice"). right. right. left. reflexivity.
Defined.

(** * The log settings command and the processor *)

Import LogSettingsCommand.

(** X9: the two tables of the command are inverse to each other: a field
    maps to a code exactly when the code maps back to the field. *)
Theorem logTypes_tables_inverse (field code : string) :
  own_property logTypesMap field = Some code
  ↔ own_property logTypesInvertedMap code = Some field.
Proof.
  unfold logTypesMap, logTypesInvertedMap, own_property. split.
  - repeat (match goal with
            | |- context [String.eqb field ?k] =>
                destruct (String.eqb_spec field k) as [->|_];
                [intros [= <-]; reflexivity|]
            end).
    discriminate.
  - repeat (match goal with
            | |- context [String.eqb code ?k] =>
                destruct (String.eqb_spec code k) as [->|_];
                [intros [= <-]; reflexivity|]
            end).
    discriminate.
Qed.

Lemma emitted_settingsKey name args :
  emitted_shape name args →
  In (settingsKey name) ["join"; "left"; "rename"; "kick"; "ban"].
Proof. destruct 1; vm_compute; tauto. Qed.

(** X10: every event the proxy emits is routed to the public channel, and
    its settings key is a code of the command whose field is the very flag
    the resolver reads for the event. *)
Theorem emitted_event_is_toggleable
        (fetch : Member → option Member) (ev : DiscordEvent)
        (eventName : string) (args : list Arg) :
  proxyDiscordEvents fetch ev = Emit eventName args →
  channelType (settingsKey eventName) = "public"
  ∧ own_property logTypesInvertedMap (settingsKey eventName)
    = Some ("logs_" +:+ settingsKey eventName +:+ "_event")
  ∧ own_property logTypesMap ("logs_" +:+ settingsKey eventName +:+ "_event")
    = Some (settingsKey eventName).
Proof.
  intros Hemit. apply proxyDiscordEvents_shape, emitted_settingsKey in Hemit.
  cbn [In] in Hemit.
  destruct Hemit as [<-|[<-|[<-|[<-|[<-|[]]]]]]; by vm_compute.
Qed.

Section Settings.

Variable escape : string → string.
Variable defaults : gmap string JsVal.
Variable guild_name : Guild → string.
Variable guild_iconURL : Guild → option string.
Variable channel_name : Channel → string.
Variable channel_viewable : Channel → bool.
Variable config_get : string → option JsVal.

Lemma truthy_flag state : truthy (Some (flag state)) = state.
Proof. by destruct state. Qed.

Lemma findOrCreate_present db id (row : gmap string JsVal) :
  db !! id = Some row → findOrCreate defaults db id = (row, db).
Proof. unfold findOrCreate. by intros ->. Qed.

(** X11: switching an event off or on through the command governs the
    processor: after [toggleSetting] with the settings key of an emitted
    event, run for the guild of the event, the flag the resolver reads for
    that event is on exactly when it was switched on, and when it was
    switched off the event is not sent. *)
Theorem toggleSetting_governs_event
        (fetch : Member → option Member) (ev : DiscordEvent)
        (eventName : string) (args : list Arg) (guild : Guild)
        (ctx : Context) (db : gmap string (gmap string JsVal)) (state : bool) :
  proxyDiscordEvents fetch ev = Emit eventName args →
  event_guild eventName args = Some guild →
  ctx_guild_row ctx = guild_id guild →
  is_Some (db !! guild_id guild) →
  let db' := (toggleSetting guild_iconURL config_get ctx db
                            (settingsKey eventName) state).2 in
  truthy ((findOrCreate defaults db' (guild_id guild)).1
            !! ("logs_" +:+ settingsKey eventName +:+ "_event")) = state
  ∧ (state = false →
     (handleEvent escape defaults db' eventName args).1 = Skipped).
Proof.
  intros Hemit Hguild Hrow [row Hdb] db'.
  destruct (emitted_event_is_toggleable _ _ _ _ Hemit) as (_ & Hfield & _).
  assert (Hdb' : db' = <[guild_id guild :=
                           <["logs_" +:+ settingsKey eventName +:+ "_event"
                             := flag state]> row]> db).
  { subst db'. unfold toggleSetting. rewrite Hfield, Hrow, Hdb.
    by destruct (reply_embed _ _ _). }
  assert (Hflag : truthy ((findOrCreate defaults db' (guild_id guild)).1
                            !! ("logs_" +:+ settingsKey eventName +:+ "_event"))
                  = state).
  { rewrite Hdb'.
    rewrite (findOrCreate_present _ _ _ (lookup_insert_eq _ _ _)).
    cbn [fst]. rewrite lookup_insert_eq. apply truthy_flag. }
  split; [done|]. intros ->.
  rewrite handleEvent_deliver, Hguild. cbn [fst]. unfold deliver.
  rewrite Hflag. cbn [negb orb]. by rewrite orb_true_r.
Qed.

(** X12: switching logging off through the command silences the processor:
    after [toggleLogging] with [false], run for a guild, no event of that
    guild is sent, whatever its name and arguments; after [toggleLogging]
    with [true] the master flag reads as on. *)
Theorem toggleLogging_governs_guild
        (eventName : string) (args : list Arg) (guild : Guild)
        (ctx : Context) (db : gmap string (gmap string JsVal)) (state : bool) :
  event_guild eventName args = Some guild →
  ctx_guild_row ctx = guild_id guild →
  is_Some (db !! guild_id guild) →
  let db' := (toggleLogging guild_iconURL config_get ctx db state).2 in
  truthy ((findOrCreate defaults db' (guild_id guild)).1 !! "logs_enabled") = state
  ∧ (state = false →
     (handleEvent escape defaults db' eventName args).1 = Skipped).
Proof.
  intros Hguild Hrow [row Hdb] db'.
  assert (Hdb' : db' = <[guild_id guild := <["logs_enabled" := flag state]> row]> db).
  { subst db'. unfold toggleLogging. rewrite Hrow, Hdb.
    by destruct (reply_embed _ _ _). }
  assert (Hflag : truthy ((findOrCreate defaults db' (guild_id guild)).1
                            !! "logs_enabled") = state).
  { rewrite Hdb'.
    rewrite (findOrCreate_present _ _ _ (lookup_insert_eq _ _ _)).
    cbn [fst]. rewrite lookup_insert_eq. apply truthy_flag. }
  split; [done|]. intros ->.
  rewrite handleEvent_deliver, Hguild. cbn [fst]. unfold deliver.
  by rewrite Hflag.
Qed.

(** X13: a setting code outside the eight codes of the command, and so also
    the [all] that the usage line offers, is refused with an error and
    nothing is written. *)
Theorem toggleSetting_unknown_code
        (ctx : Context) (db : gmap string (gmap string JsVal))
        (settingCode : string) (state : bool) :
  ¬ In settingCode ["join"; "left"; "rename"; "kick"; "ban";
                    "msg_delete"; "msg_image"; "msg_update"] →
  toggleSetting guild_iconURL config_get ctx db settingCode state
  = (Throw (Error "Incorrect setting code passed!"), db)
  ∧ toggleSetting guild_iconURL config_get ctx db "all" state
    = (Throw (Error "Incorrect setting code passed!"), db).
Proof.
  intros Hcode. split; [|reflexivity].
  unfold toggleSetting.
  replace (own_property logTypesInvertedMap settingCode) with (@None string);
    [done|].
  unfold logTypesInvertedMap, own_property.
  repeat (match goal with
          | |- context [String.eqb settingCode ?k] =>
              destruct (String.eqb_spec settingCode k) as [->|_];
              [exfalso; apply Hcode; simpl; tauto|]
          end).
  done.
Qed.

(** X14: an [Error] of the command is always raised before anything is
    written: whenever [run] throws an [Error], the table of guild rows is
    the one it was run on. *)
Theorem run_error_writes_nothing
        (ctx : Context) (db : gmap string (gmap string JsVal)) (message : string) :
  (run guild_name guild_iconURL channel_name channel_viewable config_get ctx db).1
  = Throw (Error message) →
  (run guild_name guild_iconURL channel_name channel_viewable config_get ctx db).2
  = db.
Proof.
  assert (Hset : ∀ type channelID,
             (setLogChannel guild_iconURL channel_name channel_viewable
                            config_get ctx db type channelID).1
             = Throw (Error message) →
             (setLogChannel guild_iconURL channel_name channel_viewable
                            config_get ctx db type channelID).2 = db).
  { intros type channelID. unfold setLogChannel.
    destruct (negb (mentions_channel_word type)); [done|].
    destruct channelID as [text|].
    - destruct (first_digits text) as [id|]; [|done].
      destruct (message_guild (ctx_message ctx)) as [guild|]; [|done].
      cbn [mbind option_bind].
      destruct (find_channel guild id) as [channel|]; [|done].
      destruct (_ || _); [done|].
      by destruct (reply_embed _ _ _).
    - destruct (message_guild (ctx_message ctx)) as [guild|]; [|done].
      by destruct (reply_embed _ _ _). }
  unfold run. destruct (ctx_args ctx) as [|a [|b [|c rest]]]; [done| | |done].
  - destruct (is_toggle_word a).
    { unfold toggleLogging. destruct (db !! ctx_guild_row ctx); [|done].
      by destruct (reply_embed _ _ _). }
    destruct (is_channel_word a); [|done].
    unfold resetLogChannel. destruct (ctx_args ctx); [done|]. apply Hset.
  - destruct (is_toggle_word a).
    { unfold toggleSetting.
      destruct (own_property logTypesInvertedMap b); [|done].
      destruct (db !! ctx_guild_row ctx); [|done].
      by destruct (reply_embed _ _ _). }
    destruct (is_channel_word a); [|done]. apply Hset.
Qed.

Lemma find_channel_Some guild id channel :
  find_channel guild id = Some channel →
  ∃ key, guild_channels guild !! key = Some channel ∧ channel_id channel = id.
Proof.
  unfold find_channel.
  destruct (find _ _) as [[key c]|] eqn:Hfind; [|done].
  intros [= <-]. apply find_some in Hfind as [Hin Hid].
  apply list_elem_of_In, elem_of_map_to_list in Hin.
  apply String.eqb_eq in Hid. by exists key.
Qed.

Lemma leading_digits_all s : all_digits (leading_digits s) = true.
Proof.
  induction s as [|c s IH]; [done|]. cbn [leading_digits].
  destruct (is_digit c) eqn:Hc; [|done]. cbn [all_digits]. by rewrite Hc.
Qed.

Lemma leading_digits_prefix s : ∃ post, s = leading_digits s +:+ post.
Proof.
  induction s as [|c s [post IH]]; [by exists ""|]. cbn [leading_digits].
  destruct (is_digit c).
  - exists post. change (String c s = String c (leading_digits s +:+ post)).
    by rewrite <- IH.
  - by exists (String c s).
Qed.

(** X15: the digits the command takes out of its argument: the first run of
    digits of the text, never empty, found in the text; a text of digits
    only is taken whole; and the value stored for it is shown as set by the
    command and read as configured by the processor. *)
Theorem first_digits_of_argument (text id : string) :
  first_digits text = Some id →
  id ≠ ""
  ∧ all_digits id = true
  ∧ JsString.contains id text
  ∧ (all_digits text = true → id = text)
  ∧ is_channel_id (Some (JStr id)) = true
  ∧ truthy (Some (JStr id)) = true.
Proof.
  intros Hid.
  assert (H : id ≠ "" ∧ all_digits id = true ∧ JsString.contains id text
              ∧ (all_digits text = true → id = text)).
  { revert Hid. induction text as [|c text IH]; [done|].
    cbn [first_digits]. destruct (is_digit c) eqn:Hc.
    - intros [= <-]. split; [done|]. split.
      { cbn [all_digits]. by rewrite Hc, leading_digits_all. }
      split.
      { destruct (leading_digits_prefix text) as [post Hpost].
        exists "", post. rewrite Hpost at 1. reflexivity. }
      cbn [all_digits]. rewrite Hc. cbn [andb]. clear.
      induction text as [|d text IH]; [done|]. cbn [all_digits leading_digits].
      destruct (is_digit d); [|done]. cbn [andb]. intros H.
      specialize (IH H). congruence.
    - intros Hrest. destruct (IH Hrest) as (? & ? & (pre & post & ->) & _).
      split; [done|]. split; [done|]. split.
      { by exists (String c pre), post. }
      cbn [all_digits]. by rewrite Hc. }
  destruct H as (Hne & Hall & Hin & Hwhole).
  repeat split; try done.
  - cbn [is_channel_id]. rewrite Hall.
    by rewrite (proj2 (String.eqb_neq _ _) Hne).
  - cbn [truthy]. by rewrite (proj2 (String.eqb_neq _ _) Hne).
Qed.

(** X16: when [setLogChannel] replies for a channel argument, the guild of
    the message has a channel with the digits of the argument as its
    identifier which is a text channel the bot can view, and exactly that
    identifier is written to the channel field of the guild's row. *)
Theorem setLogChannel_stores_checked_channel
        (ctx : Context) (db : gmap string (gmap string JsVal))
        (type text : string) (reply : DefaultEmbed.t) :
  (setLogChannel guild_iconURL channel_name channel_viewable config_get
                 ctx db type (Some text)).1 = Return reply →
  ∃ guild id key channel,
    message_guild (ctx_message ctx) = Some guild
    ∧ first_digits text = Some id
    ∧ guild_channels guild !! key = Some channel
    ∧ channel_id channel = id
    ∧ channel_type channel = "text"
    ∧ channel_viewable channel = true
    ∧ (setLogChannel guild_iconURL channel_name channel_viewable config_get
                     ctx db type (Some text)).2
      = update db (guild_id guild) ("logs_" +:+ type +:+ "_channel") (JStr id).
Proof.
  unfold setLogChannel.
  destruct (negb (mentions_channel_word type)); [done|].
  destruct (first_digits text) as [id|]; [|done].
  destruct (message_guild (ctx_message ctx)) as [guild|]; [|done].
  cbn [mbind option_bind].
  destruct (find_channel guild id) as [channel|] eqn:Hfind; [|done].
  destruct (negb (String.eqb (channel_type channel) "text")) eqn:Htext;
    cbn [orb]; [done|].
  destruct (negb (channel_viewable channel)) eqn:Hview; [done|].
  destruct (reply_embed _ _ _); [|done]. intros _.
  apply find_channel_Some in Hfind as (key & Hkey & Hid).
  apply negb_false_iff in Htext, Hview. apply String.eqb_eq in Htext.
  exists guild, id, key, channel. done.
Qed.

(** X17: a channel set through the command is the channel the processor
    posts to.  In a guild whose channel cache is keyed by channel
    identifier and whose row has logging and the event's flag on, once
    [setLogChannel] has replied for the public channel, an emitted event of
    that guild is sent, to the channel named by the digits of the
    argument. *)
Theorem setLogChannel_then_delivery
        (fetch : Member → option Member) (ev : DiscordEvent)
        (eventName : string) (args : list Arg) (guild : Guild)
        (ctx : Context) (db : gmap string (gmap string JsVal))
        (row : gmap string JsVal) (text : string) (reply : DefaultEmbed.t) :
  proxyDiscordEvents fetch ev = Emit eventName args →
  event_guild eventName args = Some guild →
  message_guild (ctx_message ctx) = Some guild →
  (∀ key channel, guild_channels guild !! key = Some channel →
                  channel_id channel = key) →
  db !! guild_id guild = Some row →
  truthy (row !! "logs_enabled") = true →
  truthy (row !! ("logs_" +:+ settingsKey eventName +:+ "_event")) = true →
  (setLogChannel guild_iconURL channel_name channel_viewable config_get
                 ctx db "public" (Some text)).1 = Return reply →
  ∃ channel line,
    (handleEvent escape defaults
                 (setLogChannel guild_iconURL channel_name channel_viewable
                                config_get ctx db "public" (Some text)).2
                 eventName args).1 = Sent channel line
    ∧ first_digits text = Some (channel_id channel)
    ∧ event_line escape eventName args = Some line.
Proof.
  intros Hemit Hguild Hmessage Hkeyed Hrow Henabled Hflag Hreply.
  destruct (setLogChannel_stores_checked_channel _ _ _ _ _ Hreply)
    as (guild' & id & key & channel & Hmessage' & Hid & Hkey & Hcid & Htext & _ & ->).
  rewrite Hmessage in Hmessage'. injection Hmessage' as <-.
  pose proof (Hkeyed _ _ Hkey) as Hkey'. rewrite Hcid in Hkey'. subst key.
  destruct (emitted_event_is_toggleable _ _ _ _ Hemit) as (Hpublic & _ & _).
  destruct (shape_has_line escape _ _ (proxyDiscordEvents_shape _ _ _ _ Hemit))
    as [line Hline].
  exists channel, line. split; [|by rewrite Hcid].
  rewrite handleEvent_deliver, Hguild. cbn [fst]. unfold update. rewrite Hrow.
  rewrite (findOrCreate_present _ _ _ (lookup_insert_eq _ _ _)). cbn [fst].
  unfold deliver. rewrite Hpublic.
  assert (Hne : "logs_public_channel" ≠ "logs_enabled") by done.
  assert (Hne' : "logs_public_channel"
                 ≠ "logs_" +:+ settingsKey eventName +:+ "_event").
  { apply proxyDiscordEvents_shape, emitted_settingsKey in Hemit.
    cbn [In] in Hemit.
    destruct Hemit as [<-|[<-|[<-|[<-|[<-|[]]]]]]; by vm_compute. }
  change ("logs_" +:+ "public" +:+ "_channel") with "logs_public_channel".
  rewrite !lookup_insert_eq, !lookup_insert_ne by done.
  rewrite Henabled, Hflag.
  destruct (first_digits_of_argument _ _ Hid) as (_ & _ & _ & _ & _ & ->).
  cbn [negb orb mbind option_bind toString]. rewrite Hkey.
  unfold event_line in Hline.
  destruct (table_get (eventMessageRenderer escape) eventName) as [renderer|];
    [|done].
  rewrite Hline, Htext. reflexivity.
Qed.

(** X18: resetting the public channel through the command silences the
    processor for the guild: after [run] with the single argument
    [public], an emitted event of the guild of the message is not sent. *)
Theorem reset_channel_silences
        (fetch : Member → option Member) (ev : DiscordEvent)
        (eventName : string) (args : list Arg) (guild : Guild)
        (ctx : Context) (db : gmap string (gmap string JsVal)) :
  proxyDiscordEvents fetch ev = Emit eventName args →
  event_guild eventName args = Some guild →
  ctx_args ctx = ["public"] →
  message_guild (ctx_message ctx) = Some guild →
  is_Some (db !! guild_id guild) →
  (handleEvent escape defaults
               (run guild_name guild_iconURL channel_name channel_viewable
                    config_get ctx db).2
               eventName args).1 = Skipped.
Proof.
  intros Hemit Hguild Hargs Hmessage [row Hrow].
  destruct (emitted_event_is_toggleable _ _ _ _ Hemit) as (Hpublic & _ & _).
  assert (Hdb : (run guild_name guild_iconURL channel_name channel_viewable
                     config_get ctx db).2
                = <[guild_id guild := <["logs_public_channel" := JNull]> row]> db).
  { unfold run. rewrite Hargs.
    replace (is_toggle_word "public") with false by reflexivity.
    replace (is_channel_word "public") with true by reflexivity.
    unfold resetLogChannel. rewrite Hargs. unfold setLogChannel.
    replace (mentions_channel_word "public") with true by reflexivity.
    cbn [negb]. rewrite Hmessage. unfold update. rewrite Hrow.
    by destruct (reply_embed guild_iconURL config_get ctx). }
  rewrite Hdb, handleEvent_deliver, Hguild. cbn [fst].
  rewrite (findOrCreate_present _ _ _ (lookup_insert_eq _ _ _)). cbn [fst].
  unfold deliver. rewrite Hpublic.
  change ("logs_" +:+ "public" +:+ "_channel") with "logs_public_channel".
  rewrite (lookup_insert_eq _ "logs_public_channel"). cbn [truthy negb].
  by rewrite !orb_true_r.
Qed.

End Settings.

Section Shown.

Variable guild_name : Guild → string.
Variable guild_iconURL : Guild → option string.
Variable config_get : string → option JsVal.

(** X19: a change made by [toggleSetting] is what [showLogsSettings] then
    shows: the list of events in the reply has the item of the setting
    code, checked exactly when the setting was switched on. *)
Theorem toggleSetting_then_show
        (ctx : Context) (db : gmap string (gmap string JsVal))
        (settingCode : string) (state : bool) (reply : DefaultEmbed.t) :
  (toggleSetting guild_iconURL config_get ctx db settingCode state).1
  = Return reply →
  ∃ shown name items,
    showLogsSettings guild_name guild_iconURL config_get ctx
                     (toggleSetting guild_iconURL config_get ctx db
                                    settingCode state).2
    = Return shown
    ∧ DefaultEmbed.fields shown = [(name, CheckList items)]
    ∧ In (state, Lang ("command.log.events." +:+ settingCode) []) items
    ∧ List.length items = 8.
Proof.
  unfold toggleSetting, showLogsSettings.
  destruct (own_property logTypesInvertedMap settingCode) as [field|] eqn:Hfield;
    [|done].
  destruct (db !! ctx_guild_row ctx) as [row|]; [|done].
  unfold reply_embed, DefaultEmbed.create. cbn.
  destruct (message_guild (ctx_message ctx)) as [guild|]; [|done]. cbn.
  destruct (guild_iconURL guild) as [icon|]; cbn; intros _;
    rewrite lookup_insert_eq; (eexists; eexists; eexists;
    split; [reflexivity|]; split; [reflexivity|]; split; [|reflexivity]);
    apply logTypes_tables_inverse in Hfield;
    revert Hfield; unfold logTypesMap, own_property;
    repeat (match goal with
            | |- context [String.eqb field ?k] =>
                destruct (String.eqb_spec field k) as [->|_];
                [intros [= <-]; cbn [map fst snd In];
                 rewrite ?lookup_insert_eq; cbn [is_one flag];
                 destruct state; simpl; tauto|]
            end); discriminate.
Qed.

End Shown.

(** * Reply embeds *)

(** X20: the thumbnail of a default embed.  For the three thumbnail modes
    and the default one, the embed cannot be built only when the target is
    neither a context nor a message, or when the guild picture is asked of
    a message without a guild; when it is built, its thumbnail is missing
    only if the bot itself has no avatar, and a message target gets the
    language [en]. *)
Theorem DefaultEmbed_thumbnail
        (guild_iconURL : Guild → option string)
        (config_get : string → option JsVal)
        (target : DefaultEmbed.Target) (thumbnailMode : option string) :
  In thumbnailMode [None; Some "guild"; Some "user"; Some "self"] →
  match target with
  | DefaultEmbed.Other =>
      DefaultEmbed.create guild_iconURL config_get target thumbnailMode = None
  | DefaultEmbed.OfContext message _ | DefaultEmbed.OfMessage message =>
      (DefaultEmbed.create guild_iconURL config_get target thumbnailMode = None
       ↔ thumbnailMode = Some "guild" ∧ message_guild message = None)
      ∧ ∀ embed,
          DefaultEmbed.create guild_iconURL config_get target thumbnailMode
          = Some embed →
          (DefaultEmbed.thumbnail embed = None →
           message_client_avatarURL message = None)
          ∧ (thumbnailMode = Some "user" →
             ∀ url, message_author_avatarURL message = Some url →
                    DefaultEmbed.thumbnail embed = Some url)
          ∧ (target = DefaultEmbed.OfMessage message →
             DefaultEmbed.lang embed = "en")
  end.
Proof.
  intros Hmode. cbn [In] in Hmode.
  destruct target as [message language|message|]; [| |done];
    (destruct (message_guild message) as [guild|] eqn:Hguild;
     [destruct (guild_iconURL guild) as [icon|] eqn:Hicon|]);
    destruct (message_author_avatarURL message) as [avatar|] eqn:Havatar;
    destruct (message_client_avatarURL message) as [own|] eqn:Hown;
    destruct Hmode as [<-|[<-|[<-|[<-|[]]]]];
    unfold DefaultEmbed.create; cbn;
    rewrite ?Hguild, ?Havatar, ?Hown; cbn; rewrite ?Hicon;
    (split; [split; [try done|intros [? ?]; simplify_eq]|]);
    try (intros embed [= <-]; cbn; repeat split; intros; by simplify_eq);
    done.
Qed.

(** * The message processor *)

Section Messages.

Import MessageProcessor.

Variable resolve :
  gmap string (gmap string JsVal) → Message →
  option CommandResult * gmap string (gmap string JsVal).
Variable send_ok : nat → bool.
Variable defaults : gmap string JsVal.
Variable config_get : string → option JsVal.

(** X21: how the processor answers a guild message.  It makes at most three
    sends; every send after the first is the warning; it stops at the first
    send that succeeds, so each send but the last failed; it is rejected
    exactly when its last send failed; when the command threw, the one
    thing it tries to send is the warning; and the table of guild rows is
    left as the command left it. *)
Theorem handleGuildMessage_sends
        (db : gmap string (gmap string JsVal)) (message : Message) :
  let handling := (handleGuildMessage resolve send_ok db message).1 in
  (List.length (attempts handling) ≤ 3)%nat
  ∧ (∀ i payload, (0 < i)%nat → attempts handling !! i = Some payload →
                  payload = warning)
  ∧ (∀ i, (S i < List.length (attempts handling))%nat → send_ok i = false)
  ∧ rejected handling
    = match List.length (attempts handling) with
      | 0 => false
      | S last => negb (send_ok last)
      end
  ∧ ((resolve db message).1 = None → attempts handling = [warning])
  ∧ (handleGuildMessage resolve send_ok db message).2 = (resolve db message).2.
Proof.
  unfold handleGuildMessage, handleGuildMessageResult, idle.
  destruct (resolve db message) as [[result|] db']; cbn [fst snd];
    [set (first := match result with
                   | ResultEmbed embed => Some (SendEmbed embed)
                   | ResultString s =>
                       if (0 <? String.length s)%nat
                       then Some (SendText s) else None
                   | ResultOther => None
                   end);
     destruct first as [payload|]|];
    destruct (send_ok 0) eqn:H0; destruct (send_ok 1) eqn:H1;
    destruct (send_ok 2) eqn:H2; cbn; rewrite ?H0, ?H1, ?H2; cbn;
    (split;
     [ lia
     | split;
       [ intros [|[|[|i]]] p Hi Hp; cbn in Hp; try lia; by simplify_eq
       | split;
         [ intros [|[|i]] Hi; cbn in Hi; try lia; done
         | split; [by rewrite ?H0, ?H1, ?H2|done] ] ] ]).
Qed.

(** X22: which messages the processor acts on.  Anything sent, logged,
    rejected or written to the table of guild rows comes from a message of
    a text channel that no bot wrote: for every other message the command
    is not run and the table is the one the processor was given. *)
Theorem handleMessage_acts_on
        (db : gmap string (gmap string JsVal)) (message : Message) :
  (handleMessage resolve send_ok defaults config_get db message).1 ≠ idle
  ∨ (handleMessage resolve send_ok defaults config_get db message).2 ≠ db →
  message_channel_type message = "text" ∧ message_author_bot message = false.
Proof.
  unfold handleMessage.
  destruct (String.eqb_spec (message_channel_type message) "text") as [Htext|_];
    cbn [negb]; [|by intros [|]].
  destruct (message_author_bot message); [by intros [|]|done].
Qed.

(** X23: a message that is nothing but a mention of the bot is answered as
    the [about] command under the guild's prefix: the row's prefix when it
    has one, an empty prefix included, and the configured prefix when the
    row has none or [null]; the command runs on the table in which the
    guild has its row. *)
Theorem mention_runs_about
        (db : gmap string (gmap string JsVal)) (message : Message) (guild : Guild) :
  message_channel_type message = "text" →
  message_author_bot message = false →
  message_content message = "<@" +:+ message_client_user_id message +:+ ">"
  ∨ message_content message = "<@!" +:+ message_client_user_id message +:+ ">" →
  message_guild message = Some guild →
  let row := (findOrCreate defaults db (guild_id guild)).1 in
  ∃ prefix,
    handleMessage resolve send_ok defaults config_get db message
    = handleGuildMessage resolve send_ok
                         (findOrCreate defaults db (guild_id guild)).2
                         (with_content message (prefix +:+ "about"))
    ∧ (∀ p, row !! "prefix" = Some (JStr p) → prefix = p)
    ∧ (row !! "prefix" = None ∨ row !! "prefix" = Some JNull →
       prefix = interpolate (config_get "preferences.cognitum.prefix")).
Proof.
  intros Htext Hbot Hcontent Hguild row.
  exists (interpolate (nullish_or (row !! "prefix")
                                  (config_get "preferences.cognitum.prefix"))).
  split; [|split].
  - unfold handleMessage. rewrite Htext, Hbot. cbn [String.eqb negb].
    replace (String.eqb "text" "text") with true by reflexivity. cbn [negb].
    replace (isMentionOnly message) with true.
    + unfold handleMention. rewrite Hguild. subst row.
      by destruct (findOrCreate defaults db (guild_id guild)).
    + unfold isMentionOnly, JsString.includes. cbn [existsb].
      destruct Hcontent as [-> | ->]; rewrite String.eqb_refl;
        by rewrite ?orb_true_r.
  - by intros p ->.
  - by intros [-> | ->].
Qed.

End Messages.

(** * The reminder task *)

Section Reminders.

Import ReminderTask.

Variable fetch : JsVal → Fetched.
Variable send_ok : Reminder → bool.
Variable now : Z.


(** X25: what a reminder says.  The description carries the message of the
    payload exactly when that message is a string that is not empty; in
    every other case, a number included, it is the text for an empty
    reminder. *)
Theorem reminder_description_text
        (id : string) (payload : option (gmap string JsVal)) (reminder : Reminder) :
  sent (run fetch send_ok now id payload) = Some reminder →
  match payload ≫= (λ p, p !! "message") with
  | Some (JStr (String c s)) =>
      reminder_description reminder
      = Lang "embed.tasks.reminder.description"
             [("reminderMessage", Value (Some (JStr (String c s))))]
  | _ =>
      reminder_description reminder
      = Lang "embed.tasks.reminder.descriptionEmpty" []
  end
  ∧ reminder_timestamp reminder = now
  ∧ reminder_title reminder = Lang "embed.tasks.reminder.title" [].
Proof.
  unfold run.
  destruct (payload ≫= (λ p, p !! "userId")) as [userId|]; [|done].
  destruct (negb (truthy (Some userId))); [done|].
  destruct (fetch userId) as [| |user]; [done|done|].
  cbn [sent]. intros [= <-]. cbn.
  destruct (payload ≫= (λ p, p !! "message")) as [[|n|[|c s]]|]; done.
Qed.

End Reminders.

(** * Instances of the further properties *)

Lemma handleEvent_sends_witness :
  ∃ guild id,
    event_guild "kick" [AMember Sample.kicked; AEntry Sample.kick_entry] = Some guild
    ∧ guild_channels guild !! id = Some Sample.general.
Proof.
  destruct (handleEvent_sends_only_into_guild
              escapeMarkdown ∅ (Sample.db_to "100") "kick"
              [AMember Sample.kicked; AEntry Sample.kick_entry] Sample.general
              ":boot: [KICK] by Mod#1 with reason spam | ID: 42 | Alice#0001")
    as (guild & id & Hguild & _ & Hchannel & _).
  - vm_compute. reflexivity.
  - exists guild, id. split; assumption.
Defined.

Lemma handleEvent_table_witness :
  handleEvent escapeMarkdown ∅
              (handleEvent escapeMarkdown ∅ ∅ "join" [AMember Sample.gone]).2
              "join" [AMember Sample.gone]
  = handleEvent escapeMarkdown ∅ ∅ "join" [AMember Sample.gone].
Proof.
  exact (proj2 (proj2 (handleEvent_table_stable escapeMarkdown ∅ ∅ "join"
                                                [AMember Sample.gone]))).
Defined.

Lemma memberRemove_newest_match_witness :
  resolveMemberRemove
    Sample.fetch_same
    (Sample.member_of false
       (Sample.guild_with true (Some [Sample.ban_entry; Sample.kick_entry])))
  = NoEmit.
Proof.
  exact (memberRemove_newest_match_decides
           Sample.fetch_same
           (Sample.member_of false
              (Sample.guild_with true (Some [Sample.ban_entry; Sample.kick_entry])))
           (Sample.member_of false
              (Sample.guild_with true (Some [Sample.ban_entry; Sample.kick_entry])))
           [] [Sample.kick_entry] Sample.ban_entry
           eq_refl eq_refl eq_refl (List.Forall_nil _) eq_refl).
Defined.

Lemma ban_reported_once_witness :
  resolveMemberRemove Sample.fetch_same Sample.banned = NoEmit
  ∧ resolveBanManagementEvent "ban" (member_guild Sample.banned) Sample.alice
    = Emit "banAudit" [AGuild (member_guild Sample.banned); AUser Sample.alice;
                       AEntry Sample.ban_entry].
Proof.
  exact (ban_reported_once Sample.fetch_same Sample.banned Sample.banned
                           Sample.alice [Sample.ban_entry] Sample.ban_entry
                           eq_refl eq_refl eq_refl eq_refl eq_refl eq_refl).
Defined.

Lemma emitted_entry_witness : entry_targetType Sample.kick_entry = "USER".
Proof.
  exact (proj1 (emitted_entry_is_about_subject
                  Sample.fetch_same (guildMemberRemove Sample.kicked) "kick"
                  [AMember Sample.kicked; AEntry Sample.kick_entry]
                  Sample.kick_entry eq_refl (or_intror (or_introl eq_refl)))).
Defined.

Lemma memberUpdate_rename_witness :
  proxyDiscordEvents Sample.fetch_same
                     (guildMemberUpdate Sample.kicked SampleCommand.renamed)
  = Emit "rename" [AMember Sample.kicked; AMember SampleCommand.renamed]
  ∧ display_name Sample.kicked = display_name SampleCommand.renamed.
Proof.
  split; [|reflexivity].
  apply (memberUpdate_rename_only Sample.fetch_same Sample.kicked
                                  SampleCommand.renamed).
  discriminate.
Defined.

Lemma line_names_subject_witness :
  ∃ line,
    event_line escapeMarkdown "kick"
               [AMember Sample.kicked; AEntry Sample.kick_entry] = Some line
    ∧ JsString.contains (escapeMarkdown "ID: 42") line.
Proof.
  destruct (line_names_subject
              escapeMarkdown Sample.fetch_same (guildMemberRemove Sample.kicked)
              "kick" [AMember Sample.kicked; AEntry Sample.kick_entry] eq_refl)
    as (line & Hline & Hid).
  exists line. split; [exact Hline | exact (proj1 Hid)].
Defined.

Lemma logTypes_tables_witness :
  LogSettingsCommand.own_property LogSettingsCommand.logTypesInvertedMap "ban"
  = Some "logs_ban_event".
Proof.
  apply (logTypes_tables_inverse "logs_ban_event" "ban"). reflexivity.
Defined.

Lemma emitted_event_toggleable_witness :
  channelType (settingsKey "unbanAudit") = "public".
Proof.
  exact (proj1 (emitted_event_is_toggleable
                  Sample.fetch_same
                  (guildBanRemove
                     (Sample.guild_with true (Some [Sample.unban_entry]))
                     Sample.alice)
                  "unbanAudit"
                  [AGuild (Sample.guild_with true (Some [Sample.unban_entry]));
                   AUser Sample.alice; AEntry Sample.unban_entry]
                  eq_refl)).
Defined.

Lemma toggleSetting_governs_witness :
  (handleEvent escapeMarkdown ∅
               (LogSettingsCommand.toggleSetting
                  SampleCommand.guild_iconURL SampleCommand.config_get
                  (SampleCommand.context_of ["disable"; "kick"])
                  (Sample.db_to "100") "kick" false).2
               "kick" [AMember Sample.kicked; AEntry Sample.kick_entry]).1
  = Skipped.
Proof.
  apply (toggleSetting_governs_event
           escapeMarkdown ∅ SampleCommand.guild_iconURL SampleCommand.config_get
           Sample.fetch_same (guildMemberRemove Sample.kicked) "kick"
           [AMember Sample.kicked; AEntry Sample.kick_entry] SampleCommand.guild
           (SampleCommand.context_of ["disable"; "kick"]) (Sample.db_to "100")
           false eq_refl eq_refl eq_refl).
  - exists (Sample.row_to "100"). vm_compute. reflexivity.
  - reflexivity.
Defined.

Lemma toggleLogging_governs_witness :
  (handleEvent escapeMarkdown ∅
               (LogSettingsCommand.toggleLogging
                  SampleCommand.guild_iconURL SampleCommand.config_get
                  (SampleCommand.context_of ["disable"])
                  (Sample.db_to "100") false).2
               "kick" [AMember Sample.kicked; AEntry Sample.kick_entry]).1
  = Skipped.
Proof.
  apply (toggleLogging_governs_guild
           escapeMarkdown ∅ SampleCommand.guild_iconURL SampleCommand.config_get
           "kick" [AMember Sample.kicked; AEntry Sample.kick_entry]
           SampleCommand.guild
           (SampleCommand.context_of ["disable"]) (Sample.db_to "100")
           false eq_refl eq_refl).
  - exists (Sample.row_to "100"). vm_compute. reflexivity.
  - reflexivity.
Defined.

Lemma toggleSetting_unknown_witness :
  LogSettingsCommand.toggleSetting
    SampleCommand.guild_iconURL SampleCommand.config_get
    (SampleCommand.context_of ["enable"; "everything"]) (Sample.db_to "100")
    "everything" true
  = (LogSettingsCommand.Throw
       (LogSettingsCommand.Error "Incorrect setting code passed!"),
     Sample.db_to "100").
Proof.
  apply (toggleSetting_unknown_code
           SampleCommand.guild_iconURL SampleCommand.config_get
           (SampleCommand.context_of ["enable"; "everything"])
           (Sample.db_to "100") "everything" true).
  simpl. intuition discriminate.
Defined.

Lemma run_error_witness :
  (LogSettingsCommand.run
     SampleCommand.guild_name SampleCommand.guild_iconURL
     SampleCommand.channel_name SampleCommand.channel_viewable
     SampleCommand.config_get
     (SampleCommand.context_of ["enable"; "all"]) (Sample.db_to "100")).2
  = Sample.db_to "100".
Proof.
  apply (run_error_writes_nothing
           SampleCommand.guild_name SampleCommand.guild_iconURL
           SampleCommand.channel_name SampleCommand.channel_viewable
           SampleCommand.config_get
           (SampleCommand.context_of ["enable"; "all"]) (Sample.db_to "100")
           "Incorrect setting code passed!").
  reflexivity.
Defined.

Lemma first_digits_witness :
  LogSettingsCommand.first_digits "<#100>" = Some "100"
  ∧ JsString.contains "100" "<#100>".
Proof.
  split; [reflexivity|].
  apply (first_digits_of_argument "<#100>" "100"). reflexivity.
Defined.

Lemma setLogChannel_stores_witness :
  ∃ id, LogSettingsCommand.first_digits "<#100>" = Some id
        ∧ (LogSettingsCommand.setLogChannel
             SampleCommand.guild_iconURL SampleCommand.channel_name
             SampleCommand.channel_viewable SampleCommand.config_get
             (SampleCommand.context_of ["public"; "<#100>"]) (Sample.db_to "300")
             "public" (Some "<#100>")).2
          = LogSettingsCommand.update (Sample.db_to "300") "7"
                                      "logs_public_channel" (JStr id).
Proof.
  assert (Hreply : ∃ reply,
             (LogSettingsCommand.setLogChannel
                SampleCommand.guild_iconURL SampleCommand.channel_name
                SampleCommand.channel_viewable SampleCommand.config_get
                (SampleCommand.context_of ["public"; "<#100>"])
                (Sample.db_to "300") "public" (Some "<#100>")).1
             = LogSettingsCommand.Return reply).
  { eexists. vm_compute. reflexivity. }
  destruct Hreply as [reply Hreply].
  destruct (setLogChannel_stores_checked_channel _ _ _ _ _ _ _ _ _ Hreply)
    as (guild & id & key & channel & Hguild & Hid & _ & _ & _ & _ & Hdb).
  exists id. split; [exact Hid|].
  injection Hguild as <-. exact Hdb.
Defined.

Lemma setLogChannel_then_delivery_witness :
  ∃ channel line,
    (handleEvent escapeMarkdown ∅
                 (LogSettingsCommand.setLogChannel
                    SampleCommand.guild_iconURL SampleCommand.channel_name
                    SampleCommand.channel_viewable SampleCommand.config_get
                    (SampleCommand.context_of ["public"; "<#100>"])
                    (Sample.db_to "300") "public" (Some "<#100>")).2
                 "kick" [AMember Sample.kicked; AEntry Sample.kick_entry]).1
    = Sent channel line
    ∧ LogSettingsCommand.first_digits "<#100>" = Some (channel_id channel).
Proof.
  assert (Hreply : ∃ reply,
             (LogSettingsCommand.setLogChannel
                SampleCommand.guild_iconURL SampleCommand.channel_name
                SampleCommand.channel_viewable SampleCommand.config_get
                (SampleCommand.context_of ["public"; "<#100>"])
                (Sample.db_to "300") "public" (Some "<#100>")).1
             = LogSettingsCommand.Return reply).
  { eexists. vm_compute. reflexivity. }
  destruct Hreply as [reply Hreply].
  destruct (setLogChannel_then_delivery
              escapeMarkdown ∅ SampleCommand.guild_iconURL
              SampleCommand.channel_name SampleCommand.channel_viewable
              SampleCommand.config_get Sample.fetch_same
              (guildMemberRemove Sample.kicked) "kick"
              [AMember Sample.kicked; AEntry Sample.kick_entry]
              SampleCommand.guild
              (SampleCommand.context_of ["public"; "<#100>"])
              (Sample.db_to "300") (Sample.row_to "300") "<#100>" reply
              eq_refl eq_refl eq_refl)
    as (channel & line & Hsent & Hid & _).
  - intros key channel Hkey.
    unfold SampleCommand.guild, Sample.guild_with in Hkey.
    cbn [guild_channels] in Hkey.
    apply lookup_insert_Some in Hkey as [[<- <-]|[_ Hkey]]; [reflexivity|].
    apply lookup_insert_Some in Hkey as [[<- <-]|[_ Hkey]]; [reflexivity|].
    by rewrite lookup_empty in Hkey.
  - vm_compute. reflexivity.
  - vm_compute. reflexivity.
  - vm_compute. reflexivity.
  - exact Hreply.
  - exists channel, line. split; assumption.
Defined.

Lemma reset_channel_witness :
  (handleEvent escapeMarkdown ∅
               (LogSettingsCommand.run
                  SampleCommand.guild_name SampleCommand.guild_iconURL
                  SampleCommand.channel_name SampleCommand.channel_viewable
                  SampleCommand.config_get
                  (SampleCommand.context_of ["public"]) (Sample.db_to "100")).2
               "kick" [AMember Sample.kicked; AEntry Sample.kick_entry]).1
  = Skipped.
Proof.
  apply (reset_channel_silences
           escapeMarkdown ∅ SampleCommand.guild_name SampleCommand.guild_iconURL
           SampleCommand.channel_name SampleCommand.channel_viewable
           SampleCommand.config_get Sample.fetch_same
           (guildMemberRemove Sample.kicked) "kick"
           [AMember Sample.kicked; AEntry Sample.kick_entry] SampleCommand.guild
           (SampleCommand.context_of ["public"]) (Sample.db_to "100")
           eq_refl eq_refl eq_refl eq_refl).
  exists (Sample.row_to "100"). vm_compute. reflexivity.
Defined.

Lemma toggleSetting_then_show_witness :
  ∃ shown name items,
    LogSettingsCommand.showLogsSettings
      SampleCommand.guild_name SampleCommand.guild_iconURL SampleCommand.config_get
      (SampleCommand.context_of ["enable"; "join"])
      (LogSettingsCommand.toggleSetting
         SampleCommand.guild_iconURL SampleCommand.config_get
         (SampleCommand.context_of ["enable"; "join"]) (Sample.db_to "100")
         "join" true).2
    = LogSettingsCommand.Return shown
    ∧ DefaultEmbed.fields shown = [(name, CheckList items)]
    ∧ In (true, Lang "command.log.events.join" []) items.
Proof.
  assert (Hreply : ∃ reply,
             (LogSettingsCommand.toggleSetting
                SampleCommand.guild_iconURL SampleCommand.config_get
                (SampleCommand.context_of ["enable"; "join"]) (Sample.db_to "100")
                "join" true).1
             = LogSettingsCommand.Return reply).
  { eexists. vm_compute. reflexivity. }
  destruct Hreply as [reply Hreply].
  destruct (toggleSetting_then_show
              SampleCommand.guild_name SampleCommand.guild_iconURL
              SampleCommand.config_get
              (SampleCommand.context_of ["enable"; "join"]) (Sample.db_to "100")
              "join" true reply Hreply)
    as (shown & name & items & Hshown & Hfields & Hitem & _).
  exists shown, name, items. split; [exact Hshown|]. split; [exact Hfields|].
  exact Hitem.
Defined.

Lemma DefaultEmbed_thumbnail_witness :
  DefaultEmbed.create
    SampleCommand.guild_iconURL SampleCommand.config_get
    (DefaultEmbed.OfMessage (SampleCommand.message_of "hello")) (Some "user")
  = None
  ↔ Some "user" = Some "guild"
    ∧ message_guild (SampleCommand.message_of "hello") = None.
Proof.
  destruct (DefaultEmbed_thumbnail
              SampleCommand.guild_iconURL SampleCommand.config_get
              (DefaultEmbed.OfMessage (SampleCommand.message_of "hello"))
              (Some "user")) as [Hfails _].
  - simpl. tauto.
  - exact Hfails.
Defined.

Lemma handleGuildMessage_sends_witness :
  MessageProcessor.attempts
    (MessageProcessor.handleGuildMessage
       SampleCommand.throws (SampleCommand.always false) (Sample.db_to "100")
       (SampleCommand.message_of "!log")).1
  = [MessageProcessor.warning].
Proof.
  destruct (handleGuildMessage_sends
              SampleCommand.throws (SampleCommand.always false)
              (Sample.db_to "100") (SampleCommand.message_of "!log"))
    as (_ & _ & _ & _ & Hthrown & _).
  exact (Hthrown eq_refl).
Defined.

Lemma handleMessage_acts_on_witness :
  message_channel_type (SampleCommand.message_of "!log disable") = "text"
  ∧ message_author_bot (SampleCommand.message_of "!log disable") = false.
Proof.
  apply (handleMessage_acts_on
           SampleCommand.disables (SampleCommand.always true) ∅
           SampleCommand.config_get (Sample.db_to "100")
           (SampleCommand.message_of "!log disable")).
  right. vm_compute. discriminate.
Defined.

Lemma mention_runs_about_witness :
  ∃ prefix,
    MessageProcessor.handleMessage
      (SampleCommand.answers "pong") (SampleCommand.always true) ∅
      SampleCommand.config_get (Sample.db_to "100")
      (SampleCommand.message_of "<@!999>")
    = MessageProcessor.handleGuildMessage
        (SampleCommand.answers "pong") (SampleCommand.always true)
        (findOrCreate ∅ (Sample.db_to "100") "7").2
        (MessageProcessor.with_content (SampleCommand.message_of "<@!999>")
                                       (prefix +:+ "about"))
    ∧ prefix = "!".
Proof.
  destruct (mention_runs_about
              (SampleCommand.answers "pong") (SampleCommand.always true) ∅
              SampleCommand.config_get (Sample.db_to "100")
              (SampleCommand.message_of "<@!999>") SampleCommand.guild
              eq_refl eq_refl (or_intror eq_refl) eq_refl)
    as (prefix & Hrun & _ & Hdefault).
  exists prefix. split; [exact Hrun|].
  apply Hdefault. left. vm_compute. reflexivity.
Defined.


Lemma reminder_description_witness :
  ∃ reminder,
    ReminderTask.sent
      (ReminderTask.run SampleCommand.user_lookup (λ _, true) 0 "t1"
                        (Some (SampleCommand.payload_of (JStr "42") (JStr "tea"))))
    = Some reminder
    ∧ ReminderTask.reminder_description reminder
      = Lang "embed.tasks.reminder.description"
             [("reminderMessage", Value (Some (JStr "tea")))].
Proof.
  assert (Hsent : ∃ reminder,
             ReminderTask.sent
               (ReminderTask.run
                  SampleCommand.user_lookup (λ _, true) 0 "t1"
                  (Some (SampleCommand.payload_of (JStr "42") (JStr "tea"))))
             = Some reminder).
  { eexists. vm_compute. reflexivity. }
  destruct Hsent as (reminder & Hsent).
  exists reminder. split; [exact Hsent|].
  exact (proj1 (reminder_description_text
                  SampleCommand.user_lookup (λ _, true) 0 "t1"
                  (Some (SampleCommand.payload_of (JStr "42") (JStr "tea")))
                  reminder Hsent)).
Defined.

(** * The further definitions at work *)

Example digits_of_a_mention :
  LogSettingsCommand.first_digits "<#100> and 200" = Some "100"
  ∧ LogSettingsCommand.first_digits "general" = None
  ∧ LogSettingsCommand.mentions_channel_word "xpublicx" = true
  ∧ LogSettingsCommand.is_channel_id (Some (JNum 0)) = true
  ∧ truthy (Some (JNum 0)) = false.
Proof. repeat split; reflexivity. Qed.

Example usage_error_on_three_arguments :
  (LogSettingsCommand.run
     SampleCommand.guild_name SampleCommand.guild_iconURL
     SampleCommand.channel_name SampleCommand.channel_viewable
     SampleCommand.config_get
     (SampleCommand.context_of ["enable"; "kick"; "now"]) (Sample.db_to "100")).1
  = LogSettingsCommand.Throw (LogSettingsCommand.Error "Incorrect command usage!").
Proof. reflexivity. Qed.

Example voice_channel_is_refused :
  LogSettingsCommand.setLogChannel
    SampleCommand.guild_iconURL SampleCommand.channel_name
    SampleCommand.channel_viewable SampleCommand.config_get
    (SampleCommand.context_of ["public"; "200"]) (Sample.db_to "100")
    "public" (Some "200")
  = (LogSettingsCommand.Throw
       (LogSettingsCommand.Error
          "This channel is not exist or it is not viewable by bot!"),
     Sample.db_to "100").
Proof. vm_compute. reflexivity. Qed.

Example every_send_fails :
  MessageProcessor.handleGuildMessage
    (SampleCommand.answers "pong") (SampleCommand.always false) ∅
    (SampleCommand.message_of "!ping")
  = ({| MessageProcessor.attempts :=
          [MessageProcessor.SendText "pong"; MessageProcessor.warning;
           MessageProcessor.warning];
        MessageProcessor.logged :=
          [MessageProcessor.failure_log; MessageProcessor.failure_log];
        MessageProcessor.rejected := true |}, ∅).
Proof. reflexivity. Qed.

Example empty_answer_sends_nothing :
  MessageProcessor.handleGuildMessage
    (SampleCommand.answers "") (SampleCommand.always true) ∅
    (SampleCommand.message_of "!ping")
  = (MessageProcessor.idle, ∅).
Proof. reflexivity. Qed.

Example command_writes_through_the_processor :
  truthy
    (((MessageProcessor.handleMessage
         SampleCommand.disables (SampleCommand.always true) ∅
         SampleCommand.config_get (Sample.db_to "100")
         (SampleCommand.message_of "!log disable")).2 !! "7")
       ≫= (λ row, row !! "logs_enabled"))
  = false.
Proof. vm_compute. reflexivity. Qed.

Example reminder_without_user :
  ReminderTask.run SampleCommand.user_lookup (λ _, true) 0 "t1" None
  = {| ReminderTask.sent := None;
       ReminderTask.logged := [("error", "User ID is not set! Task ID: t1.")];
       ReminderTask.rejected := false |}.
Proof. reflexivity. Qed.

Example reminder_with_a_number_as_message :
  ReminderTask.reminder_description
  <$> ReminderTask.sent
        (ReminderTask.run SampleCommand.user_lookup (λ _, true) 0 "t1"
                          (Some (SampleCommand.payload_of (JStr "42") (JNum 7))))
  = Some (Lang "embed.tasks.reminder.descriptionEmpty" []).
Proof. vm_compute. reflexivity. Qed.
